(** * Error envelope, structured logger and weather adapter of the
      auth / order / product services

    A shallow embedding of [src/auth/core/error.py] and
    [src/order/core/logger.py], followed by the properties the
    specification states about them.

    Python objects that the code mutates (the process-wide logger, the
    [Logger] class attribute, standard output) live in an explicit [World];
    code that can raise runs in a small state-and-exception monad [M] in
    which a raise keeps the mutations made before it. *)

From Stdlib Require Import ZArith List String Ascii Bool Lia.
From Stdlib Require Import DecimalString DecimalPos DecimalZ QArith Qround.
Import ListNotations.
Open Scope string_scope.
Open Scope Z_scope.
Set Warnings "-register-all".

(** ** Python values *)

(** The values that travel through [**kwargs], [Dict[str, Any]] fields and
    JSON bodies.  A [dict] keeps insertion order, as Python's does. *)
Inductive value : Type :=
| VNone
| VBool (b : bool)
| VInt (z : Z)
| VStr (s : string)
| VList (l : list value)
| VDict (d : list (string * value)).

Definition dict : Type := list (string * value).

(** [d.get(k)] *)
Fixpoint dict_get (d : dict) (k : string) : option value :=
  match d with
  | [] => None
  | (k', v) :: d' => if String.eqb k k' then Some v else dict_get d' k
  end.

(** [d[k] = v]: an existing key keeps its position, a new one goes last. *)
Fixpoint dict_set (d : dict) (k : string) (v : value) : dict :=
  match d with
  | [] => [(k, v)]
  | (k', v') :: d' =>
      if String.eqb k k' then (k', v) :: d' else (k', v') :: dict_set d' k v
  end.

(** [d.update(e)] *)
Definition dict_update (d e : dict) : dict :=
  fold_left (fun acc kv => dict_set acc (fst kv) (snd kv)) e d.

(** A dict display [{k1: v1, ..., **more}]: later items win. *)
Definition dict_lit (items : dict) : dict := dict_update [] items.

(** [k in d] *)
Definition dict_mem (d : dict) (k : string) : bool :=
  match dict_get d k with Some _ => true | None => false end.

(** [del d[k]] for a key that may be absent. *)
Fixpoint dict_remove (d : dict) (k : string) : dict :=
  match d with
  | [] => []
  | (k', v) :: d' =>
      if String.eqb k k' then dict_remove d' k else (k', v) :: dict_remove d' k
  end.

Definition dict_keys (d : dict) : list string := map fst d.

(** Truth value of an object, as [if x:] and [x or y] test it. *)
Definition truthy (v : value) : bool :=
  match v with
  | VNone => false
  | VBool b => b
  | VInt z => negb (z =? 0)
  | VStr s => negb (String.eqb s "")
  | VList l => match l with [] => false | _ => true end
  | VDict d => match d with [] => false | _ => true end
  end.

Definition opt_str (o : option string) : value :=
  match o with Some s => VStr s | None => VNone end.

(** ** Strings *)

(** [str(n)] for an [int]. *)
Definition str_int (z : Z) : string := NilZero.string_of_int (Z.to_int z).

(** [s.upper()], on the ASCII letters. *)
Definition ascii_upper (c : ascii) : ascii :=
  let n := nat_of_ascii c in
  if ((97 <=? n) && (n <=? 122))%nat then ascii_of_nat (n - 32) else c.

Fixpoint upper (s : string) : string :=
  match s with
  | EmptyString => EmptyString
  | String c s' => String (ascii_upper c) (upper s')
  end.

(** [sep.join(parts)] *)
Definition join (sep : string) (parts : list string) : string :=
  String.concat sep parts.

(** ** Exceptions and the monad *)

Inductive exn : Type :=
| NameError (name : string)
| AttributeError (obj attr : string)
| ValueError (msg : string)
| TypeError (msg : string)
| ValidationError (model field : string).

Inductive Res (A : Type) : Type :=
| Ok (a : A)
| Raise (e : exn).
Arguments Ok {A} a.
Arguments Raise {A} e.

Definition returns {A : Type} (r : Res A) : bool :=
  match r with Ok _ => true | Raise _ => false end.

(** ** The logging world *)

Inductive Formatter : Type :=
| JSONFormatter
| PlainFormatter.   (* logging.Formatter("%(asctime)s - %(levelname)s - ...") *)

(** [logging.StreamHandler(sys.stdout)] with its formatter. *)
Record Handler : Type := { h_formatter : Formatter }.

(** The attributes of a [logging.Logger] that [setup] writes. *)
Record PyLogger : Type := {
  lg_level : Z;
  lg_handlers : list Handler;
  lg_propagate : bool
}.

(** What [sys.exc_info()] or an exception instance contributes to a record:
    type name and [str(value)]; [None] is the triple [(None, None, None)]. *)
Definition ExcTriple : Type := option (string * string).

(** One line written to standard output. *)
Inductive Line : Type :=
| JSONLine (log_data : dict)
| TextLine (text : string) (exc : option ExcTriple).

Record World : Type := {
  app_logger : PyLogger;          (* logging.getLogger(Logger._APP_LOGGER_NAME) *)
  Logger_logger : bool;           (* Logger._logger is not None; it is then app_logger *)
  root_level : Z;                 (* level of the root logger *)
  stdout : list Line;
  middleware : list string;       (* middleware added to the app given to setup *)
  now : string;                   (* ISO form of the current UTC time *)
  current_exc : ExcTriple;        (* sys.exc_info() *)
  format_exc_lines : list string  (* traceback.format_exc(limit=10).splitlines() *)
}.

Definition M (A : Type) : Type := World -> Res A * World.

Definition ret {A : Type} (a : A) : M A := fun w => (Ok a, w).

Definition bind {A B : Type} (m : M A) (f : A -> M B) : M B :=
  fun w =>
    match m w with
    | (Ok a, w') => f a w'
    | (Raise e, w') => (Raise e, w')
    end.

Definition raise {A : Type} (e : exn) : M A := fun w => (Raise e, w).

Definition get_world : M World := fun w => (Ok w, w).
Definition put_world (w : World) : M unit := fun _ => (Ok tt, w).

Declare Scope py_scope.
Delimit Scope py_scope with py.
Notation "x <- m ;; k" := (bind m (fun x => k))
  (at level 61, m at next level, right associativity) : py_scope.
Notation "m ;; k" := (bind m (fun _ => k))
  (at level 61, right associativity) : py_scope.
Open Scope py_scope.

Definition result {A : Type} (m : M A) (w : World) : Res A := fst (m w).
Definition world_after {A : Type} (m : M A) (w : World) : World := snd (m w).

Definition set_app_logger (l : PyLogger) (w : World) : World :=
  {| app_logger := l; Logger_logger := Logger_logger w;
     root_level := root_level w; stdout := stdout w;
     middleware := middleware w; now := now w;
     current_exc := current_exc w; format_exc_lines := format_exc_lines w |}.

Definition set_Logger_logger (b : bool) (w : World) : World :=
  {| app_logger := app_logger w; Logger_logger := b;
     root_level := root_level w; stdout := stdout w;
     middleware := middleware w; now := now w;
     current_exc := current_exc w; format_exc_lines := format_exc_lines w |}.

Definition write_stdout (l : Line) (w : World) : World :=
  {| app_logger := app_logger w; Logger_logger := Logger_logger w;
     root_level := root_level w; stdout := stdout w ++ [l];
     middleware := middleware w; now := now w;
     current_exc := current_exc w; format_exc_lines := format_exc_lines w |}.

Definition add_middleware (name : string) (w : World) : World :=
  {| app_logger := app_logger w; Logger_logger := Logger_logger w;
     root_level := root_level w; stdout := stdout w;
     middleware := middleware w ++ [name]; now := now w;
     current_exc := current_exc w; format_exc_lines := format_exc_lines w |}.

(** A freshly created logger, before any [setup]. *)
Definition fresh_logger : PyLogger :=
  {| lg_level := 0; lg_handlers := []; lg_propagate := true |}.

Definition fresh_world : World :=
  {| app_logger := fresh_logger; Logger_logger := false;
     root_level := 30; stdout := []; middleware := [];
     now := "2025-01-01T00:00:00+00:00"; current_exc := None;
     format_exc_lines := ["NoneType: None"] |}.

(** ** [logging]: levels, records, formatters, handlers *)

Definition DEBUG : Z := 10.
Definition INFO : Z := 20.
Definition WARNING : Z := 30.
Definition ERROR : Z := 40.
Definition CRITICAL : Z := 50.

(** [logging._nameToLevel] *)
Definition nameToLevel_table : list (string * Z) :=
  [("CRITICAL", 50); ("FATAL", 50); ("ERROR", 40); ("WARN", 30);
   ("WARNING", 30); ("INFO", 20); ("DEBUG", 10); ("NOTSET", 0)].

Fixpoint lookup_level (t : list (string * Z)) (name : string) : option Z :=
  match t with
  | [] => None
  | (k, n) :: t' => if String.eqb name k then Some n else lookup_level t' name
  end.

Definition nameToLevel (name : string) : option Z :=
  lookup_level nameToLevel_table name.

Definition with_level (n : Z) (l : PyLogger) : PyLogger :=
  {| lg_level := n; lg_handlers := lg_handlers l; lg_propagate := lg_propagate l |}.

Definition with_handlers (hs : list Handler) (l : PyLogger) : PyLogger :=
  {| lg_level := lg_level l; lg_handlers := hs; lg_propagate := lg_propagate l |}.

Definition with_propagate (b : bool) (l : PyLogger) : PyLogger :=
  {| lg_level := lg_level l; lg_handlers := lg_handlers l; lg_propagate := b |}.

(** [logger.setLevel(name)]: a name outside the table raises [ValueError]
    and leaves the logger as it was. *)
Definition setLevel (name : string) : M unit :=
  fun w =>
    match nameToLevel name with
    | Some n => (Ok tt, set_app_logger (with_level n (app_logger w)) w)
    | None => (Raise (ValueError ("Unknown level: '" ++ name ++ "'")), w)
    end.

Definition set_handlers (hs : list Handler) : M unit :=
  fun w => (Ok tt, set_app_logger (with_handlers hs (app_logger w)) w).

Definition set_propagate (b : bool) : M unit :=
  fun w => (Ok tt, set_app_logger (with_propagate b (app_logger w)) w).

(** [logger.addHandler(h)] for a handler object created just before. *)
Definition addHandler (h : Handler) : M unit :=
  fun w =>
    (Ok tt,
     set_app_logger
       (with_handlers (lg_handlers (app_logger w) ++ [h]) (app_logger w)) w).

Record LogRecord : Type := {
  levelname : string;
  levelno : Z;
  created : string;
  message : string;
  module_name : string;
  funcName : string;
  lineno : Z;
  exc_info : option ExcTriple;       (* falsy, or the (type, value, tb) triple *)
  rec_request_id : option value;     (* attribute request_id, when present *)
  rec_extra : option dict            (* attribute extra, when present *)
}.

(** [JSONFormatter.format], up to [json.dumps]: the [log_data] that is
    dumped, or [None] when formatting raises (the triple of [exc_info] is
    [(None, None, None)], so [exc_type.__name__] fails). *)
Definition JSONFormatter_format (record : LogRecord) : option dict :=
  let log_data :=
    [("level", VStr (levelname record));
     ("timestamp", VStr (created record));
     ("message", VStr (message record));
     ("module", VStr (module_name record));
     ("function", VStr (funcName record));
     ("line", VInt (lineno record))] in
  let log_data :=
    match rec_request_id record with
    | Some rid => dict_set log_data "request_id" rid
    | None => log_data
    end in
  let with_exception :=
    match exc_info record with
    | None => Some log_data
    | Some None => None
    | Some (Some (exc_type, exc_value)) =>
        Some (dict_set log_data "exception"
                (VDict [("type", VStr exc_type); ("message", VStr exc_value)]))
    end in
  match with_exception with
  | None => None
  | Some log_data =>
      match rec_extra record with
      | Some extra =>
          if truthy (VDict extra) then Some (dict_update log_data extra)
          else Some log_data
      | None => Some log_data
      end
  end.

(** The plain formatter's line; the traceback text it appends for a record
    with [exc_info] is kept as the triple itself. *)
Definition PlainFormatter_format (record : LogRecord) : Line :=
  TextLine
    (created record ++ " - " ++ levelname record ++ " - " ++ message record
     ++ " [" ++ module_name record ++ ":" ++ funcName record ++ ":"
     ++ str_int (lineno record) ++ "]")
    (exc_info record).

(** [StreamHandler.emit]: an exception raised while formatting goes to
    [handleError], nothing is written and nothing propagates. *)
Definition Handler_emit (h : Handler) (record : LogRecord) (w : World) : World :=
  match h_formatter h with
  | JSONFormatter =>
      match JSONFormatter_format record with
      | Some log_data => write_stdout (JSONLine log_data) w
      | None => w
      end
  | PlainFormatter => write_stdout (PlainFormatter_format record) w
  end.

Definition getEffectiveLevel (w : World) : Z :=
  if lg_level (app_logger w) =? 0 then root_level w else lg_level (app_logger w).

(** The [exc_info] argument of a log call. *)
Inductive ExcInfoArg : Type :=
| EI_False
| EI_True
| EI_Exc (exc_type exc_value : string).

(** [logger.log(level, msg, exc_info=ei, extra={"extra": kwargs})] on the
    application logger, called from function [func] at line [line] of
    [logger.py]; [extra] is [Some kwargs], or [None] for a call without
    [extra=].  [makeRecord] copies the one key ["extra"] onto the record.
    Records that propagate to the root logger are not followed. *)
Definition PyLogger_log (lvl : Z) (lvlname : string) (func : string) (line : Z)
    (msg : string) (ei : ExcInfoArg) (extra : option dict) : M unit :=
  fun w =>
    if getEffectiveLevel w <=? lvl then
      let record :=
        {| levelname := lvlname; levelno := lvl; created := now w;
           message := msg; module_name := "logger"; funcName := func;
           lineno := line;
           exc_info :=
             match ei with
             | EI_False => None
             | EI_True => Some (current_exc w)
             | EI_Exc t v => Some (Some (t, v))
             end;
           rec_request_id := None;
           rec_extra := extra |} in
      (Ok tt,
       fold_left (fun w' h => Handler_emit h record w')
         (lg_handlers (app_logger w)) w)
    else (Ok tt, w).

(** ** [core/logger.py]: the [Logger] class *)

Module Logger.

(** [Logger.setup(app, log_level, json_format)].  [app] tells whether an
    application object was passed.  The returned logger is [app_logger] of
    the world. *)
Definition setup (app : bool) (log_level : string) (json_format : bool) : M unit :=
  setLevel (upper log_level) ;;
  set_handlers [] ;;
  set_propagate false ;;
  let handler :=
    {| h_formatter := if json_format then JSONFormatter else PlainFormatter |} in
  addHandler handler ;;
  (fun w => (Ok tt, set_Logger_logger true w)) ;;
  (if app then (fun w => (Ok tt, add_middleware "LoggingMiddleware" w))
   else ret tt) ;;
  PyLogger_log INFO "INFO" "setup" 141
    ("Logger initialized with level: " ++ log_level) EI_False None.

(** [Logger._get_logger()] *)
Definition _get_logger : M unit :=
  w <- get_world ;;
  if Logger_logger w then ret tt else setup false "INFO" true.

Definition info (message : string) (kwargs : dict) : M unit :=
  _get_logger ;;
  PyLogger_log INFO "INFO" "info" 152 message EI_False (Some kwargs).

Definition error (message : string) (exc_info : ExcInfoArg) (kwargs : dict) : M unit :=
  _get_logger ;;
  PyLogger_log ERROR "ERROR" "error" 156 message exc_info (Some kwargs).

Definition warning (message : string) (kwargs : dict) : M unit :=
  _get_logger ;;
  PyLogger_log WARNING "WARNING" "warning" 160 message EI_False (Some kwargs).

Definition debug (message : string) (kwargs : dict) : M unit :=
  _get_logger ;;
  PyLogger_log DEBUG "DEBUG" "debug" 164 message EI_False (Some kwargs).

Definition critical (message : string) (exc_info : ExcInfoArg) (kwargs : dict) : M unit :=
  _get_logger ;;
  PyLogger_log CRITICAL "CRITICAL" "critical" 168 message exc_info (Some kwargs).

End Logger.

(** ** Requests *)

(** The parts of a Starlette [Request] the code reads.  [state] holds the
    attributes set on [request.state]. *)
Record Request : Type := {
  state : dict;
  url_path : string;
  method : string;
  path_params : dict;
  query_params : dict
}.

(** [request.state.<name>]: an attribute that was never set raises. *)
Definition state_attr (request : Request) (name : string) : M value :=
  match dict_get (state request) name with
  | Some v => ret v
  | None => raise (AttributeError "State" name)
  end.

(** [getattr(request.state, name, None)] *)
Definition state_getattr (request : Request) (name : string) : value :=
  match dict_get (state request) name with
  | Some v => v
  | None => VNone
  end.

(** ** [core/logger.py]: the request-scoped logger *)

(** The adapter closes over [request] and over the application logger. *)
Record RequestLogger : Type := { rl_request : Request }.

Definition get_request_logger (request : Request) : M RequestLogger :=
  Logger._get_logger ;;
  ret {| rl_request := request |}.

Module RequestLogger.

Definition info (self : RequestLogger) (message : string) (kwargs : dict) : M unit :=
  rid <- state_attr (rl_request self) "request_id" ;;
  let kwargs := dict_set kwargs "request_id" rid in
  PyLogger_log INFO "INFO" "info" 180 message EI_False (Some kwargs).

Definition error (self : RequestLogger) (message : string) (exc_info : ExcInfoArg)
    (kwargs : dict) : M unit :=
  rid <- state_attr (rl_request self) "request_id" ;;
  let kwargs := dict_set kwargs "request_id" rid in
  PyLogger_log ERROR "ERROR" "error" 184 message exc_info (Some kwargs).

Definition warning (self : RequestLogger) (message : string) (kwargs : dict) : M unit :=
  rid <- state_attr (rl_request self) "request_id" ;;
  let kwargs := dict_set kwargs "request_id" rid in
  PyLogger_log WARNING "WARNING" "warning" 188 message EI_False (Some kwargs).

Definition debug (self : RequestLogger) (message : string) (kwargs : dict) : M unit :=
  rid <- state_attr (rl_request self) "request_id" ;;
  let kwargs := dict_set kwargs "request_id" rid in
  PyLogger_log DEBUG "DEBUG" "debug" 192 message EI_False (Some kwargs).

Definition critical (self : RequestLogger) (message : string) (exc_info : ExcInfoArg)
    (kwargs : dict) : M unit :=
  rid <- state_attr (rl_request self) "request_id" ;;
  let kwargs := dict_set kwargs "request_id" rid in
  PyLogger_log CRITICAL "CRITICAL" "critical" 196 message exc_info (Some kwargs).

End RequestLogger.

(** [request.state.<name> = v] *)
Definition set_state_attr (request : Request) (name : string) (v : value) : Request :=
  {| state := dict_set (state request) name v;
     url_path := url_path request; method := method request;
     path_params := path_params request; query_params := query_params request |}.

(** The statements of [LoggingMiddleware.dispatch] that come before
    [call_next]: the request is tagged with the [X-Request-ID] header, or
    with a fresh uuid when the header is absent, and the start is logged.
    What follows [call_next] (the timing of the response) is not modelled. *)
Definition dispatch_enter (x_request_id : option string) (uuid4 : string)
    (request : Request) : M Request :=
  let request_id := match x_request_id with Some h => h | None => uuid4 end in
  let request := set_state_attr request "request_id" (VStr request_id) in
  Logger.info ("Request started: " ++ method request ++ " " ++ url_path request)
    [("request_id", VStr request_id);
     ("method", VStr (method request));
     ("path", VStr (url_path request))] ;;
  ret request.

(** ** [core/error.py]: response models *)

Definition lift {A : Type} (r : Res A) : M A := fun w => (r, w).

Definition res_bind {A B : Type} (r : Res A) (f : A -> Res B) : Res B :=
  match r with
  | Ok a => f a
  | Raise e => Raise e
  end.

(** [class ErrorDetail(BaseModel)] *)
Record ErrorDetail : Type := {
  location : option string;
  ed_message : string;
  ed_type : string;
  ed_code : option string
}.

(** [class ErrorResponse(BaseModel)] *)
Record ErrorResponse : Type := {
  code : Z;
  er_message : string;
  er_error : string;
  request_id : option string;
  trace_id : option string;
  details : option dict;
  errors : option (list ErrorDetail)
}.

(** Field validation as pydantic performs it on keyword arguments; the
    coercions of its lax mode (a numeric string for an [int]) are not
    followed: every caller in the module passes values of the declared
    types or [None]. *)
Definition field_int (model field : string) (kw : dict) : Res Z :=
  match dict_get kw field with
  | Some (VInt z) => Ok z
  | _ => Raise (ValidationError model field)
  end.

Definition field_str (model field : string) (kw : dict) : Res string :=
  match dict_get kw field with
  | Some (VStr s) => Ok s
  | _ => Raise (ValidationError model field)
  end.

Definition field_opt_str (model field : string) (kw : dict) : Res (option string) :=
  match dict_get kw field with
  | None => Ok None
  | Some VNone => Ok None
  | Some (VStr s) => Ok (Some s)
  | Some _ => Raise (ValidationError model field)
  end.

Definition field_opt_dict (model field : string) (kw : dict) : Res (option dict) :=
  match dict_get kw field with
  | None => Ok None
  | Some VNone => Ok None
  | Some (VDict d) => Ok (Some d)
  | Some _ => Raise (ValidationError model field)
  end.

(** [ErrorDetail] built from the keyword arguments [kw] *)
Definition ErrorDetail_init (kw : dict) : Res ErrorDetail :=
  res_bind (field_opt_str "ErrorDetail" "location" kw) (fun loc =>
  res_bind (field_str "ErrorDetail" "message" kw) (fun msg =>
  res_bind (field_str "ErrorDetail" "type" kw) (fun ty =>
  res_bind (field_opt_str "ErrorDetail" "code" kw) (fun c =>
  Ok {| location := loc; ed_message := msg; ed_type := ty; ed_code := c |})))).

(** A [List[ErrorDetail]] given as a list of dicts. *)
Fixpoint ErrorDetail_list (vs : list value) : Res (list ErrorDetail) :=
  match vs with
  | [] => Ok []
  | VDict d :: vs' =>
      res_bind (ErrorDetail_init d) (fun e =>
      res_bind (ErrorDetail_list vs') (fun es => Ok (e :: es)))
  | _ :: _ => Raise (ValidationError "ErrorResponse" "errors")
  end.

Definition field_opt_errors (kw : dict) : Res (option (list ErrorDetail)) :=
  match dict_get kw "errors" with
  | None => Ok None
  | Some VNone => Ok None
  | Some (VList vs) => res_bind (ErrorDetail_list vs) (fun es => Ok (Some es))
  | Some _ => Raise (ValidationError "ErrorResponse" "errors")
  end.

(** [ErrorResponse] built from the keyword arguments [kw] *)
Definition ErrorResponse_init (kw : dict) : Res ErrorResponse :=
  res_bind (field_int "ErrorResponse" "code" kw) (fun c =>
  res_bind (field_str "ErrorResponse" "message" kw) (fun msg =>
  res_bind (field_str "ErrorResponse" "error" kw) (fun err =>
  res_bind (field_opt_str "ErrorResponse" "request_id" kw) (fun rid =>
  res_bind (field_opt_str "ErrorResponse" "trace_id" kw) (fun tid =>
  res_bind (field_opt_dict "ErrorResponse" "details" kw) (fun det =>
  res_bind (field_opt_errors kw) (fun errs =>
  Ok {| code := c; er_message := msg; er_error := err; request_id := rid;
        trace_id := tid; details := det; errors := errs |}))))))).

(** One [key: value] item, present when the field is not [None]. *)
Definition item_if_set {A : Type} (k : string) (f : A -> value) (o : option A) : dict :=
  match o with
  | Some a => [(k, f a)]
  | None => []
  end.

(** [ErrorDetail.model_dump()] (also the deprecated [.dict()]) *)
Definition ErrorDetail_model_dump (e : ErrorDetail) : dict :=
  [("location", opt_str (location e));
   ("message", VStr (ed_message e));
   ("type", VStr (ed_type e));
   ("code", opt_str (ed_code e))].

(** [ErrorDetail.model_dump(exclude_none=True)] *)
Definition ErrorDetail_model_dump_exclude_none (e : ErrorDetail) : dict :=
  (item_if_set "location" VStr (location e)
   ++ [("message", VStr (ed_message e)); ("type", VStr (ed_type e))]
   ++ item_if_set "code" VStr (ed_code e))%list.

(** [ErrorResponse.model_dump(exclude_none=True)] (also
    [.dict(exclude_none=True)]): fields in declaration order, a field whose
    value is [None] left out, nested models dumped the same way; the values
    inside [details] are kept as they are. *)
Definition model_dump_exclude_none (r : ErrorResponse) : dict :=
  ([("code", VInt (code r));
    ("message", VStr (er_message r));
    ("error", VStr (er_error r))]
   ++ item_if_set "request_id" VStr (request_id r)
   ++ item_if_set "trace_id" VStr (trace_id r)
   ++ item_if_set "details" VDict (details r)
   ++ item_if_set "errors"
        (fun es => VList (map (fun e => VDict (ErrorDetail_model_dump_exclude_none e)) es))
        (errors r))%list.

(** [fastapi.responses.JSONResponse] *)
Record JSONResponse : Type := {
  resp_status_code : Z;
  content : dict;
  resp_headers : dict
}.

(** ** [core/error.py]: exceptions *)

(** One entry of [traceback.extract_tb]. *)
Record Frame : Type := {
  filename : string;
  frame_lineno : Z;
  frame_name : string;
  frame_line : option string
}.

(** An arbitrary exception instance, as the handlers inspect it:
    [type(exc).__name__], [__module__], [str(exc)], [__cause__], a
    [context] attribute when it is a dict, an [error_code] attribute when
    it holds a string, and the frames of [__traceback__]. *)
Inductive PyExc : Type :=
| mkExc (exc_type : string) (exc_module : option string) (exc_str : string)
        (exc_cause : option PyExc) (exc_context : option dict)
        (exc_error_code : option string) (exc_tb : list Frame).

Definition exc_type (e : PyExc) : string :=
  match e with mkExc t _ _ _ _ _ _ => t end.
Definition exc_module (e : PyExc) : option string :=
  match e with mkExc _ m _ _ _ _ _ => m end.
Definition exc_str (e : PyExc) : string :=
  match e with mkExc _ _ s _ _ _ _ => s end.
Definition exc_cause (e : PyExc) : option PyExc :=
  match e with mkExc _ _ _ c _ _ _ => c end.
Definition exc_context (e : PyExc) : option dict :=
  match e with mkExc _ _ _ _ c _ _ => c end.
Definition exc_error_code (e : PyExc) : option string :=
  match e with mkExc _ _ _ _ _ c _ => c end.
Definition exc_tb (e : PyExc) : list Frame :=
  match e with mkExc _ _ _ _ _ _ tb => tb end.

(** [exc_info=exc] for an exception instance. *)
Definition ei_of (e : PyExc) : ExcInfoArg := EI_Exc (exc_type e) (exc_str e).

(** [class AppError(Exception)] *)
Record AppError : Type := {
  ae_message : string;
  original_error : option PyExc;
  ae_context : dict;
  error_code : option string
}.

(** [x or {}] for an optional dict *)
Definition or_empty (o : option dict) : dict :=
  match o with Some d => d | None => [] end.

(** [AppError.__init__] *)
Definition AppError_init (message : string) (original_error : option PyExc)
    (context : option dict) (error_code : option string) : M AppError :=
  let self :=
    {| ae_message := message; original_error := original_error;
       ae_context := or_empty context; error_code := error_code |} in
  let error_context :=
    dict_lit ([("error_type", VStr "app_error");
               ("error_code", opt_str error_code)] ++ ae_context self)%list in
  match original_error with
  | Some oe =>
      let error_context :=
        dict_update error_context
          [("original_error_type", VStr (exc_type oe));
           ("original_error_message", VStr (exc_str oe))] in
      Logger.error ("AppError created: " ++ message) (ei_of oe)
        [("error_context", VDict error_context)] ;;
      ret self
  | None =>
      Logger.error ("AppError created: " ++ message) EI_False
        [("error_context", VDict error_context)] ;;
      ret self
  end.

(** [class APIError(HTTPException)] *)
Record APIError : Type := {
  status_code : Z;
  api_message : string;
  api_error : string;
  api_details : dict;
  api_context : dict;
  api_headers : option dict
}.

Module APIError.

(** The table of [_default_error_code]. *)
Definition error_codes : list (Z * string) :=
  [(400, "bad_request");
   (401, "unauthorized");
   (403, "forbidden");
   (404, "not_found");
   (409, "conflict");
   (422, "validation_error");
   (429, "rate_limit_exceeded");
   (500, "internal_server_error");
   (502, "bad_gateway");
   (503, "service_unavailable");
   (504, "gateway_timeout")].

Fixpoint lookup_code (t : list (Z * string)) (status_code : Z) : option string :=
  match t with
  | [] => None
  | (k, slug) :: t' => if status_code =? k then Some slug else lookup_code t' status_code
  end.

(** [APIError._default_error_code(status_code)] *)
Definition _default_error_code (status_code : Z) : string :=
  match lookup_code error_codes status_code with
  | Some slug => slug
  | None => "http_" ++ str_int status_code
  end.

(** How [log_method(msg, error_context=ctx, **details)] binds to
    [Logger.error(cls, message, exc_info=False, **kwargs)]: a key of
    [details] that names a parameter already given is a [TypeError]; a key
    [exc_info] fills that parameter and leaves the keyword dict. *)
Definition bind_error_call (ctx : dict) (details : dict) : Res (ExcInfoArg * dict) :=
  if dict_mem details "error_context" then
    Raise (TypeError "got multiple values for keyword argument 'error_context'")
  else if dict_mem details "message" then
    Raise (TypeError "got multiple values for argument 'message'")
  else if dict_mem details "cls" then
    Raise (TypeError "got multiple values for argument 'cls'")
  else
    let ei :=
      match dict_get details "exc_info" with
      | Some v => if truthy v then EI_True else EI_False
      | None => EI_False
      end in
    Ok (ei, (("error_context", VDict ctx) :: dict_remove details "exc_info")).

(** [APIError.__init__] *)
Definition __init__ (status_code : Z) (message : string) (error : option string)
    (details headers context : option dict) : M APIError :=
  let self :=
    {| status_code := status_code;
       api_message := message;
       api_error :=
         match error with
         | Some e => if String.eqb e "" then _default_error_code status_code else e
         | None => _default_error_code status_code
         end;
       api_details := or_empty details;
       api_context := or_empty context;
       api_headers := headers |} in
  call <- lift (bind_error_call
                  (dict_lit ([("error_type", VStr (api_error self));
                              ("status_code", VInt (status_code));
                              ("message", VStr (api_message self))]
                             ++ api_context self)%list)
                  (api_details self)) ;;
  Logger.error ("API Error Created: " ++ api_error self) (fst call) (snd call) ;;
  ret self.

Definition default (d : string) (o : option string) : string :=
  match o with Some s => s | None => d end.

(** The convenience constructors.  [message] is [None] when the caller
    leaves the default; the other keyword arguments go on to [__init__]. *)
Definition bad_request (message : option string) (error : option string)
    (details headers context : option dict) : M APIError :=
  __init__ 400 (default "Invalid request" message) error details headers context.

Definition unauthorized (message : option string) (error : option string)
    (details headers context : option dict) : M APIError :=
  __init__ 401 (default "Authentication required" message) error details headers context.

Definition forbidden (message : option string) (error : option string)
    (details headers context : option dict) : M APIError :=
  __init__ 403 (default "Access denied" message) error details headers context.

Definition not_found (entity : option string) (error : option string)
    (details headers context : option dict) : M APIError :=
  __init__ 404 (default "Resource" entity ++ " not found") error details headers context.

Definition conflict (message : option string) (error : option string)
    (details headers context : option dict) : M APIError :=
  __init__ 409 (default "Resource conflict" message) error details headers context.

Definition validation_error (message : option string) (error : option string)
    (details headers context : option dict) : M APIError :=
  __init__ 422 (default "Validation error" message) error details headers context.

Definition rate_limit_exceeded (message : option string) (error : option string)
    (details headers context : option dict) : M APIError :=
  __init__ 429 (default "Rate limit exceeded" message) error details headers context.

Definition internal_server_error (message : option string) (error : option string)
    (details headers context : option dict) : M APIError :=
  __init__ 500 (default "Internal server error" message) error details headers context.

Definition bad_gateway (message : option string) (error : option string)
    (details headers context : option dict) : M APIError :=
  __init__ 502 (default "Bad gateway" message) error details headers context.

Definition service_unavailable (message : option string) (error : option string)
    (details headers context : option dict) : M APIError :=
  __init__ 503 (default "Service unavailable" message) error details headers context.

Definition gateway_timeout (message : option string) (error : option string)
    (details headers context : option dict) : M APIError :=
  __init__ 504 (default "Gateway timeout" message) error details headers context.

Definition invalid_json (error : option string)
    (details headers context : option dict) : M APIError :=
  bad_request (Some "Invalid JSON data") error details headers context.

(** [l[-5:] if len(l) > 5 else l] *)
Definition last5 {A : Type} (l : list A) : list A :=
  if (5 <? List.length l)%nat then skipn (List.length l - 5) l else l.

(** [APIError.from_exception(exc, status_code, context)] *)
Definition from_exception (exc : PyExc) (status_code : Z) (context : option dict)
    : M APIError :=
  let error_context := or_empty context in
  let exc_details :=
    [("type", VStr (exc_type exc));
     ("module", VStr (default "unknown" (exc_module exc)))] in
  let exc_details :=
    match exc_cause exc with
    | Some cause =>
        dict_set exc_details "cause"
          (VDict [("type", VStr (exc_type cause)); ("message", VStr (exc_str cause))])
    | None => exc_details
    end in
  let error_context :=
    match exc_context exc with
    | Some c => dict_update error_context c
    | None => error_context
    end in
  w <- get_world ;;
  let tb_summary := format_exc_lines w in
  let exc_details :=
    dict_set exc_details "traceback_summary" (VList (map VStr (last5 tb_summary))) in
  let error_code :=
    match exc_error_code exc with
    | Some c => if String.eqb c "" then _default_error_code status_code else c
    | None => _default_error_code status_code
    end in
  __init__ status_code
    (if String.eqb (exc_str exc) "" then "An unexpected error occurred" else exc_str exc)
    (Some error_code) (Some exc_details) None (Some error_context).

End APIError.

(** ** [core/error.py]: the exception handlers *)

(** The module-level names a handler looks up when it runs.  [error.py]
    imports [Logger] and [get_request_logger] from [core.logger]; it neither
    imports nor defines [get_logger], the name [handle_api_error] calls. *)
Record Globals : Type := {
  g_get_logger : option (Request -> M RequestLogger)
}.

(** The namespace of [error.py] as it is written. *)
Definition error_py : Globals := {| g_get_logger := None |}.

(** The same namespace with [get_logger] bound to [get_request_logger]. *)
Definition error_py_bound : Globals := {| g_get_logger := Some get_request_logger |}.

(** Looking up and calling the global [get_logger]. *)
Definition call_get_logger (G : Globals) (request : Request) : M RequestLogger :=
  match g_get_logger G with
  | Some f => f request
  | None => raise (NameError "get_logger")
  end.

(** [handle_api_error(request, exc)] *)
Definition handle_api_error (G : Globals) (request : Request) (exc : APIError)
    : M JSONResponse :=
  request_logger <- call_get_logger G request ;;
  let trace_context :=
    [("request_id", state_getattr request "request_id");
     ("trace_id", state_getattr request "trace_id");
     ("span_id", state_getattr request "span_id")] in
  let error_context :=
    dict_lit ([("status_code", VInt (status_code exc));
               ("error_type", VStr (api_error exc));
               ("path", VStr (url_path request));
               ("method", VStr (method request))] ++ api_context exc)%list in
  RequestLogger.error request_logger
    ("API Error: " ++ api_error exc ++ " - " ++ api_message exc) EI_False
    (("error_context", VDict error_context) :: trace_context) ;;
  response <- lift (ErrorResponse_init
    [("code", VInt (status_code exc));
     ("message", VStr (api_message exc));
     ("error", VStr (api_error exc));
     ("details", VDict (api_details exc));
     ("request_id", state_getattr request "request_id");
     ("trace_id", state_getattr request "trace_id")]) ;;
  ret {| resp_status_code := status_code exc;
         content := model_dump_exclude_none response;
         resp_headers := or_empty (api_headers exc) |}.

(** One component of the [loc] tuple of a validation error. *)
Inductive LocItem : Type :=
| LocStr (s : string)
| LocInt (i : Z).

Definition str_loc (x : LocItem) : string :=
  match x with
  | LocStr s => s
  | LocInt i => str_int i
  end.

(** One dict of [exc.errors()]; a field is [None] when the key is absent
    and [error.get] falls back to its default. *)
Record FieldError : Type := {
  fe_loc : option (list LocItem);
  fe_msg : option string;
  fe_type : option string
}.

(** The body of the loop that builds [error_details], the same in both
    validation handlers: the [ErrorDetail] made from one error, then its
    dump. *)
Definition detail_of (error : FieldError) : ErrorDetail :=
  let loc :=
    join " -> " (map str_loc (match fe_loc error with Some l => l | None => [] end)) in
  {| location := Some loc;
     ed_message := APIError.default "" (fe_msg error);
     ed_type := APIError.default "validation_error" (fe_type error);
     ed_code := None |}.

Definition error_detail_of (error : FieldError) : dict :=
  ErrorDetail_model_dump (detail_of error).

Definition HTTP_422_UNPROCESSABLE_ENTITY : Z := 422.

(** [handle_validation_error(request, exc)]; [exc_errors] is [exc.errors()]. *)
Definition handle_validation_error (request : Request) (exc_errors : list FieldError)
    : M JSONResponse :=
  request_logger <- get_request_logger request ;;
  let error_details := map error_detail_of exc_errors in
  let trace_context :=
    [("request_id", state_getattr request "request_id");
     ("trace_id", state_getattr request "trace_id")] in
  let request_data :=
    [("path_params", VDict (path_params request));
     ("query_params", VDict (query_params request))] in
  RequestLogger.warning request_logger "Request validation error"
    ([("error_context",
       VDict [("error_type", VStr "validation_error");
              ("path", VStr (url_path request));
              ("method", VStr (method request));
              ("error_count", VInt (Z.of_nat (List.length error_details)))]);
      ("validation_errors", VList (map VDict error_details));
      ("request_data", VDict request_data)] ++ trace_context)%list ;;
  response <- lift (ErrorResponse_init
    [("code", VInt HTTP_422_UNPROCESSABLE_ENTITY);
     ("message", VStr "Request validation error");
     ("error", VStr "validation_error");
     ("request_id", state_getattr request "request_id");
     ("trace_id", state_getattr request "trace_id");
     ("errors", VList (map VDict error_details))]) ;;
  ret {| resp_status_code := HTTP_422_UNPROCESSABLE_ENTITY;
         content := model_dump_exclude_none response;
         resp_headers := [] |}.

(** [handle_pydantic_validation_error(request, exc)] *)
Definition handle_pydantic_validation_error (request : Request)
    (exc_errors : list FieldError) : M JSONResponse :=
  request_logger <- get_request_logger request ;;
  let error_details := map error_detail_of exc_errors in
  let trace_context :=
    [("request_id", state_getattr request "request_id");
     ("trace_id", state_getattr request "trace_id")] in
  RequestLogger.warning request_logger "Pydantic validation error"
    ([("error_context",
       VDict [("error_type", VStr "pydantic_validation_error");
              ("path", VStr (url_path request));
              ("method", VStr (method request));
              ("error_count", VInt (Z.of_nat (List.length error_details)))]);
      ("validation_errors", VList (map VDict error_details))] ++ trace_context)%list ;;
  response <- lift (ErrorResponse_init
    [("code", VInt HTTP_422_UNPROCESSABLE_ENTITY);
     ("message", VStr "Data validation error");
     ("error", VStr "validation_error");
     ("request_id", state_getattr request "request_id");
     ("trace_id", state_getattr request "trace_id");
     ("errors", VList (map VDict error_details))]) ;;
  ret {| resp_status_code := HTTP_422_UNPROCESSABLE_ENTITY;
         content := model_dump_exclude_none response;
         resp_headers := [] |}.

(** [api_error.details.update(trace_context)] *)
Definition update_details (e : APIError) (more : dict) : APIError :=
  {| status_code := status_code e; api_message := api_message e;
     api_error := api_error e;
     api_details := dict_update (api_details e) more;
     api_context := api_context e; api_headers := api_headers e |}.

(** [handle_app_error(request, exc)] *)
Definition handle_app_error (G : Globals) (request : Request) (exc : AppError)
    : M JSONResponse :=
  request_logger <- get_request_logger request ;;
  let trace_context :=
    [("request_id", state_getattr request "request_id");
     ("trace_id", state_getattr request "trace_id")] in
  let error_context :=
    dict_lit ([("error_type", VStr "app_error");
               ("error_code", opt_str (error_code exc));
               ("path", VStr (url_path request));
               ("method", VStr (method request))] ++ ae_context exc)%list in
  let request_data :=
    [("path_params", VDict (path_params request));
     ("query_params", VDict (query_params request))] in
  let error_context :=
    match original_error exc with
    | Some oe =>
        dict_update error_context
          [("original_error_type", VStr (exc_type oe));
           ("original_error_message", VStr (exc_str oe));
           ("original_error_module", VStr (APIError.default "unknown" (exc_module oe)))]
    | None => error_context
    end in
  RequestLogger.error request_logger ("Application Error: " ++ ae_message exc)
    (match original_error exc with Some oe => ei_of oe | None => EI_False end)
    ([("error_context", VDict error_context);
      ("request_data", VDict request_data)] ++ trace_context)%list ;;
  api_error <- APIError.internal_server_error
    (Some "An internal server error occurred") None
    (Some [("app_error_message", VStr (ae_message exc));
           ("app_error_code", opt_str (error_code exc))])
    None (Some error_context) ;;
  let api_error := update_details api_error trace_context in
  handle_api_error G request api_error.

(** The [while current_exc.__cause__ is not None] loop. *)
Fixpoint exception_chain (current_exc : PyExc) : list value :=
  match current_exc with
  | mkExc t _ s (Some cause) _ _ _ =>
      VDict [("type", VStr t); ("message", VStr s)] :: exception_chain cause
  | mkExc _ _ _ None _ _ _ => []
  end.

(** [handle_generic_exception(request, exc)] *)
Definition handle_generic_exception (G : Globals) (request : Request) (exc : PyExc)
    : M JSONResponse :=
  request_logger <- get_request_logger request ;;
  let trace_context :=
    [("request_id", state_getattr request "request_id");
     ("trace_id", state_getattr request "trace_id")] in
  let frame_info :=
    match rev (exc_tb exc) with
    | last_frame :: _ =>
        [("file", VStr (filename last_frame));
         ("line", VInt (frame_lineno last_frame));
         ("function", VStr (frame_name last_frame));
         ("code", opt_str (frame_line last_frame))]
    | [] => [("file", VStr "unknown"); ("line", VInt 0); ("function", VStr "unknown")]
    end in
  let chain := exception_chain exc in
  let request_data :=
    [("path_params", VDict (path_params request));
     ("query_params", VDict (query_params request))] in
  let error_context :=
    dict_lit ([("error_type", VStr "unhandled_exception");
               ("exception_class", VStr (exc_type exc));
               ("exception_module", VStr (APIError.default "unknown" (exc_module exc)));
               ("path", VStr (url_path request));
               ("method", VStr (method request));
               ("exception_chain",
                match chain with [] => VNone | _ => VList chain end)]
              ++ frame_info)%list in
  RequestLogger.error request_logger
    ("Unhandled exception: " ++ exc_type exc ++ " - " ++ exc_str exc) (ei_of exc)
    ([("error_context", VDict error_context);
      ("request_data", VDict request_data)] ++ trace_context)%list ;;
  api_error <- APIError.from_exception exc 500
                 (Some (dict_lit (error_context ++ trace_context)%list)) ;;
  handle_api_error G request api_error.

(** How the application dispatches a fault to its handler
    ([setup_exception_handlers]). *)
Inductive Fault : Type :=
| FaultAPIError (exc : APIError)
| FaultRequestValidation (exc_errors : list FieldError)
| FaultValidation (exc_errors : list FieldError)
| FaultAppError (exc : AppError)
| FaultException (exc : PyExc).

Definition handle (G : Globals) (request : Request) (f : Fault) : M JSONResponse :=
  match f with
  | FaultAPIError exc => handle_api_error G request exc
  | FaultRequestValidation errs => handle_validation_error request errs
  | FaultValidation errs => handle_pydantic_validation_error request errs
  | FaultAppError exc => handle_app_error G request exc
  | FaultException exc => handle_generic_exception G request exc
  end.

(** ** [app/weather]: schemas and the weather adapter *)

(** [class TemperatureData(BaseModel)] *)
Record TemperatureData : Type := {
  temperature : string;
  temp_unit : string
}.

(** What the upstream call of the adapter comes back with. *)
Inductive Upstream : Type :=
| UpstreamReading (temp : Q)
| UpstreamTimeout (exc : PyExc)
| UpstreamHTTPError (status : Z) (exc : PyExc)
| UpstreamException (exc : PyExc).

(** How a call of the adapter ends. *)
Inductive WeatherOutcome : Type :=
| Returned (data : TemperatureData)
| RaisedAPIError (e : APIError)
| RaisedAppError (e : AppError).

(** Modelled from the spec: the rounding of [get_weather_data], whose
    module [app/weather/api/service.py] is not among the sources (its unit
    test is).  The spec words it as round-half-up to the nearest integer
    degree.  The reading is a rational here. *)
Definition round_half_up (q : Q) : Z := Qfloor (q + (1 # 2)).

(** Modelled from the spec: [WeatherService.get_weather_data(location)] of
    [app/weather/api/service.py], which is not among the sources (its unit
    test is).  Section 4.4 of the spec: a reading becomes a whole-degree
    Celsius string; a timeout becomes [APIError] 504, an upstream 404
    [APIError] 404, an upstream 401 [APIError] 400, anything else an
    [AppError] that wraps the original fault.  The two exception classes
    are the ones of [core/error.py] above. *)
Definition get_weather_data (location : string) (up : Upstream) : M WeatherOutcome :=
  match up with
  | UpstreamReading temp =>
      ret (Returned {| temperature := str_int (round_half_up temp); temp_unit := "c" |})
  | UpstreamTimeout _ =>
      e <- APIError.__init__ 504 "Weather API timed out" None None None None ;;
      ret (RaisedAPIError e)
  | UpstreamHTTPError status exc =>
      if status =? 404 then
        e <- APIError.__init__ 404 ("Weather data for " ++ location ++ " not found")
               None None None None ;;
        ret (RaisedAPIError e)
      else if status =? 401 then
        e <- APIError.__init__ 400 "Invalid API key" None None None None ;;
        ret (RaisedAPIError e)
      else
        e <- AppError_init "Failed to fetch weather data" (Some exc) None None ;;
        ret (RaisedAppError e)
  | UpstreamException exc =>
      e <- AppError_init "Failed to fetch weather data" (Some exc) None None ;;
      ret (RaisedAppError e)
  end.

(** ** Sample inputs *)

Definition request_with_id : Request :=
  {| state := [("request_id", VStr "req-1")];
     url_path := "/hello"; method := "GET";
     path_params := []; query_params := [] |}.

Definition request_without_id : Request :=
  {| state := []; url_path := "/hello"; method := "GET";
     path_params := []; query_params := [] |}.

Definition two_invalid_fields : list FieldError :=
  [ {| fe_loc := Some [LocStr "a"; LocStr "b"];
       fe_msg := Some "Field required"; fe_type := Some "missing" |};
    {| fe_loc := Some [LocStr "c"];
       fe_msg := Some "Input should be a valid integer"; fe_type := Some "int_parsing" |} ].

(** The body the spec expects for these two fields. *)
Definition two_invalid_fields_response : JSONResponse :=
  {| resp_status_code := 422;
     content :=
       [("code", VInt 422);
        ("message", VStr "Request validation error");
        ("error", VStr "validation_error");
        ("request_id", VStr "req-1");
        ("errors",
         VList
           [VDict [("location", VStr "a -> b");
                   ("message", VStr "Field required");
                   ("type", VStr "missing")];
            VDict [("location", VStr "c");
                   ("message", VStr "Input should be a valid integer");
                   ("type", VStr "int_parsing")]])];
     resp_headers := [] |}.

Definition x_failed : AppError :=
  {| ae_message := "X failed"; original_error := None;
     ae_context := []; error_code := None |}.

(** ** Predicates used in the statements *)

(** The body of a response carries the response's own status as [code]. *)
Definition code_matches_status (r : JSONResponse) : Prop :=
  dict_get (content r) "code" = Some (VInt (resp_status_code r)).

(** A value acceptable for an [Optional[str]] field. *)
Definition is_opt_str (v : value) : bool :=
  match v with
  | VNone | VStr _ => true
  | _ => false
  end.


(** The slug table as section 4.1 of the spec lists it. *)
Definition slug_table : list (Z * string) :=
  [(400, "bad_request"); (401, "unauthorized"); (403, "forbidden");
   (404, "not_found"); (409, "conflict"); (422, "validation_error");
   (429, "rate_limit_exceeded"); (500, "internal_server_error");
   (502, "bad_gateway"); (503, "service_unavailable"); (504, "gateway_timeout")].

(** The five log operations, as [getattr(Logger, level)] names them. *)
Inductive LogMethod : Type :=
| m_info
| m_error
| m_warning
| m_debug
| m_critical.

(** [getattr(Logger, m)(message, exc_info=ei, **kwargs)]; [info], [warning]
    and [debug] take no [exc_info].  [kwargs] is the keyword dict as the
    method receives it. *)
Definition Logger_call (m : LogMethod) (message : string) (ei : ExcInfoArg)
    (kwargs : dict) : M unit :=
  match m with
  | m_info => Logger.info message kwargs
  | m_error => Logger.error message ei kwargs
  | m_warning => Logger.warning message kwargs
  | m_debug => Logger.debug message kwargs
  | m_critical => Logger.critical message ei kwargs
  end.

(** The same on a request-scoped logger. *)
Definition RequestLogger_call (m : LogMethod) (self : RequestLogger)
    (message : string) (ei : ExcInfoArg) (kwargs : dict) : M unit :=
  match m with
  | m_info => RequestLogger.info self message kwargs
  | m_error => RequestLogger.error self message ei kwargs
  | m_warning => RequestLogger.warning self message kwargs
  | m_debug => RequestLogger.debug self message kwargs
  | m_critical => RequestLogger.critical self message ei kwargs
  end.

(** Two calls of [setup] in a row; a caller that catches the exception of
    the first goes on to the second. *)
Definition setup_twice (app1 : bool) (level1 : string) (json1 : bool)
    (app2 : bool) (level2 : string) (json2 : bool) (w : World) : World :=
  world_after (Logger.setup app2 level2 json2)
    (world_after (Logger.setup app1 level1 json1) w).

(** A dict has no key twice. *)
Definition dict_wf (d : dict) : Prop := NoDup (dict_keys d).

(** Whether a field of an [ErrorResponse] holds a value; the three
    required fields always do, and a name that is no field never does. *)
Definition field_is_set (r : ErrorResponse) (k : string) : bool :=
  if String.eqb k "code" then true
  else if String.eqb k "message" then true
  else if String.eqb k "error" then true
  else if String.eqb k "request_id" then
    match request_id r with Some _ => true | None => false end
  else if String.eqb k "trace_id" then
    match trace_id r with Some _ => true | None => false end
  else if String.eqb k "details" then
    match details r with Some _ => true | None => false end
  else if String.eqb k "errors" then
    match errors r with Some _ => true | None => false end
  else false.

(** The logger after the start-up call of [main.py], without the app. *)
Definition world_after_setup : World :=
  world_after (Logger.setup false "INFO" true) fresh_world.

(** A caller that passes a [request_id] of its own. *)
Definition spoofed_kwargs : dict :=
  [("user_id", VStr "123"); ("request_id", VStr "spoofed")].

Definition connection_error : PyExc :=
  mkExc "Exception" (Some "builtins") "Something went wrong" None None None [].

(** ** The rest of the two modules *)

(** The convenience constructors of [APIError] that take a [message]. *)
Inductive Constructor : Type :=
| c_bad_request
| c_unauthorized
| c_forbidden
| c_conflict
| c_validation_error
| c_rate_limit_exceeded
| c_internal_server_error
| c_bad_gateway
| c_service_unavailable
| c_gateway_timeout.

(** The name of the class method. *)
Definition constructor_name (c : Constructor) : string :=
  match c with
  | c_bad_request => "bad_request"
  | c_unauthorized => "unauthorized"
  | c_forbidden => "forbidden"
  | c_conflict => "conflict"
  | c_validation_error => "validation_error"
  | c_rate_limit_exceeded => "rate_limit_exceeded"
  | c_internal_server_error => "internal_server_error"
  | c_bad_gateway => "bad_gateway"
  | c_service_unavailable => "service_unavailable"
  | c_gateway_timeout => "gateway_timeout"
  end.

(** [getattr(APIError, name)(message=..., **kwargs)] *)
Definition call_constructor (c : Constructor) (message : option string)
    (error : option string) (details headers context : option dict) : M APIError :=
  match c with
  | c_bad_request => APIError.bad_request message error details headers context
  | c_unauthorized => APIError.unauthorized message error details headers context
  | c_forbidden => APIError.forbidden message error details headers context
  | c_conflict => APIError.conflict message error details headers context
  | c_validation_error => APIError.validation_error message error details headers context
  | c_rate_limit_exceeded =>
      APIError.rate_limit_exceeded message error details headers context
  | c_internal_server_error =>
      APIError.internal_server_error message error details headers context
  | c_bad_gateway => APIError.bad_gateway message error details headers context
  | c_service_unavailable =>
      APIError.service_unavailable message error details headers context
  | c_gateway_timeout => APIError.gateway_timeout message error details headers context
  end.

(** An exception and the causes behind it, outermost first. *)
Fixpoint causes (e : PyExc) : list PyExc :=
  match e with
  | mkExc _ _ _ (Some cause) _ _ _ => e :: causes cause
  | mkExc _ _ _ None _ _ _ => [e]
  end.

(** The entry [exception_chain] holds for one exception. *)
Definition chain_entry (e : PyExc) : value :=
  VDict [("type", VStr (exc_type e)); ("message", VStr (exc_str e))].

(** [try: body except Exception as e: handler(e)] *)
Definition try_except {A : Type} (body : M A) (handler : exn -> M A) : M A :=
  fun w =>
    match body w with
    | (Ok a, w') => (Ok a, w')
    | (Raise e, w') => handler e w'
    end.

(** [LoggingMiddleware.dispatch(request, call_next)].  [describe e] gives
    [type(e).__name__] and [str(e)] of an exception; inside the [except]
    block [exc_info=True] picks up that exception.  The two durations are
    floats read off the clock and rounded, for which [value] has no
    constructor: they are passed in as the values that stand for them. *)
Definition dispatch (describe : exn -> string * string)
    (x_request_id : option string) (uuid4 : string)
    (duration_ok duration_failed : value)
    (call_next : Request -> M JSONResponse) (request : Request) : M JSONResponse :=
  request <- dispatch_enter x_request_id uuid4 request ;;
  let request_id := state_getattr request "request_id" in
  try_except
    (response <- call_next request ;;
     Logger.info ("Request completed: " ++ str_int (resp_status_code response))
       [("request_id", request_id);
        ("status_code", VInt (resp_status_code response));
        ("duration_ms", duration_ok)] ;;
     ret response)
    (fun e =>
       Logger.error
         ("Request failed: " ++ fst (describe e) ++ " - " ++ snd (describe e))
         (EI_Exc (fst (describe e)) (snd (describe e)))
         [("request_id", request_id); ("duration_ms", duration_failed)] ;;
       raise e).


(** The keys of [details] that collide with a parameter of [Logger.error]
    when [APIError.__init__] spreads them into its log call. *)
Definition colliding_key (details : dict) : bool :=
  dict_mem details "error_context" || dict_mem details "message"
  || dict_mem details "cls".

(** An exception type name and text for the samples. *)
Definition describe_sample (e : exn) : string * string :=
  match e with
  | NameError n => ("NameError", "name '" ++ n ++ "' is not defined")
  | AttributeError o a => ("AttributeError", "'" ++ o ++ "' object has no attribute '" ++ a ++ "'")
  | ValueError m => ("ValueError", m)
  | TypeError m => ("TypeError", m)
  | ValidationError m f => ("ValidationError", "1 validation error for " ++ m)
  end.

Definition chained_error : PyExc :=
  mkExc "RuntimeError" (Some "builtins") "outer"
    (Some (mkExc "KeyError" (Some "builtins") "'k'"
       (Some (mkExc "OSError" (Some "builtins") "disk" None None None [])) None None []))
    None None [].


(** * Properties *)

(** ** The monad *)

Lemma bind_ok_inv {A B : Type} (m : M A) (f : A -> M B) w b w' :
  bind m f w = (Ok b, w') ->
  exists a w1, m w = (Ok a, w1) /\ f a w1 = (Ok b, w').
Proof.
  unfold bind. destruct (m w) as [[a | e] w1]; intros H.
  - exists a, w1. split; [reflexivity | exact H].
  - discriminate H.
Qed.

Lemma bind_ok {A B : Type} (m : M A) (f : A -> M B) w a w1 :
  m w = (Ok a, w1) -> bind m f w = f a w1.
Proof. intros H. unfold bind. rewrite H. reflexivity. Qed.

Lemma bind_raise {A B : Type} (m : M A) (f : A -> M B) w e w1 :
  m w = (Raise e, w1) -> bind m f w = (Raise e, w1).
Proof. intros H. unfold bind. rewrite H. reflexivity. Qed.

Lemma result_ok_inv {A : Type} (m : M A) w a :
  result m w = Ok a -> exists w', m w = (Ok a, w').
Proof.
  unfold result. destruct (m w) as [r w']. simpl. intros ->. now exists w'.
Qed.

Lemma res_bind_ok_inv {A B : Type} (r : Res A) (f : A -> Res B) b :
  res_bind r f = Ok b -> exists a, r = Ok a /\ f a = Ok b.
Proof.
  destruct r as [a | e]; simpl; intros H; [now exists a | discriminate H].
Qed.

Lemma lift_ok_inv {A : Type} (r : Res A) w a w' :
  lift r w = (Ok a, w') -> r = Ok a /\ w' = w.
Proof. unfold lift. intros H. inversion H. split; reflexivity. Qed.

(** Splits a hypothesis [m1 ;; m2 ;; ... = (Ok _, _)] into its steps. *)
Ltac bind_inv H :=
  let a := fresh "a" in
  let w1 := fresh "w" in
  let H1 := fresh "Hstep" in
  apply bind_ok_inv in H; destruct H as (a & w1 & H1 & H).

(** ** Logging calls return *)

Lemma PyLogger_log_returns lvl lvlname func line msg ei extra w :
  exists w', PyLogger_log lvl lvlname func line msg ei extra w = (Ok tt, w').
Proof.
  unfold PyLogger_log. destruct (getEffectiveLevel w <=? lvl); eauto.
Qed.

Lemma setup_valid_returns app log_level json_format n w :
  nameToLevel (upper log_level) = Some n ->
  exists w', Logger.setup app log_level json_format w = (Ok tt, w').
Proof.
  intros Hn. unfold Logger.setup.
  unfold bind at 1. unfold setLevel at 1. rewrite Hn.
  unfold bind, set_handlers, set_propagate, addHandler, ret.
  destruct app; apply PyLogger_log_returns.
Qed.

Lemma get_logger_returns w :
  exists w', Logger._get_logger w = (Ok tt, w').
Proof.
  unfold Logger._get_logger, bind, get_world.
  destruct (Logger_logger w).
  - now exists w.
  - apply (setup_valid_returns false "INFO" true 20). reflexivity.
Qed.

Lemma Logger_error_returns msg ei kwargs w :
  exists w', Logger.error msg ei kwargs w = (Ok tt, w').
Proof.
  unfold Logger.error.
  destruct (get_logger_returns w) as (w1 & H1).
  rewrite (bind_ok _ _ _ _ _ H1). apply PyLogger_log_returns.
Qed.

Lemma get_request_logger_returns request w :
  exists w', get_request_logger request w = (Ok {| rl_request := request |}, w').
Proof.
  unfold get_request_logger.
  destruct (get_logger_returns w) as (w1 & H1).
  rewrite (bind_ok _ _ _ _ _ H1). now exists w1.
Qed.

(** ** Building and dumping an [ErrorResponse] *)

Lemma ErrorResponse_init_inv kw r :
  ErrorResponse_init kw = Ok r ->
  field_int "ErrorResponse" "code" kw = Ok (code r)
  /\ field_str "ErrorResponse" "message" kw = Ok (er_message r)
  /\ field_str "ErrorResponse" "error" kw = Ok (er_error r)
  /\ field_opt_str "ErrorResponse" "request_id" kw = Ok (request_id r)
  /\ field_opt_str "ErrorResponse" "trace_id" kw = Ok (trace_id r)
  /\ field_opt_dict "ErrorResponse" "details" kw = Ok (details r)
  /\ field_opt_errors kw = Ok (errors r).
Proof.
  unfold ErrorResponse_init. intros H.
  repeat (apply res_bind_ok_inv in H; destruct H as (? & ? & H)).
  inversion H; subst; clear H. simpl. repeat split; assumption.
Qed.

Lemma dump_code r :
  dict_get (model_dump_exclude_none r) "code" = Some (VInt (code r)).
Proof. reflexivity. Qed.

Lemma dump_message r :
  dict_get (model_dump_exclude_none r) "message" = Some (VStr (er_message r)).
Proof. reflexivity. Qed.

Lemma dump_error r :
  dict_get (model_dump_exclude_none r) "error" = Some (VStr (er_error r)).
Proof. reflexivity. Qed.

Lemma dump_details r :
  dict_get (model_dump_exclude_none r) "details" = option_map VDict (details r).
Proof.
  unfold model_dump_exclude_none.
  destruct (request_id r), (trace_id r), (details r), (errors r); reflexivity.
Qed.


(** ** What a returned response looks like, handler by handler *)

Lemma handle_api_error_ok G request exc w r w' :
  handle_api_error G request exc w = (Ok r, w') ->
  resp_status_code r = status_code exc
  /\ exists resp,
       content r = model_dump_exclude_none resp
       /\ code resp = status_code exc
       /\ er_message resp = api_message exc
       /\ er_error resp = api_error exc
       /\ details resp = Some (api_details exc).
Proof.
  unfold handle_api_error. intros H.
  bind_inv H. bind_inv H. bind_inv H.
  apply lift_ok_inv in Hstep1. destruct Hstep1 as [Hinit _].
  unfold ret in H. inversion H; subst; clear H. simpl.
  split; [reflexivity |]. exists a1. split; [reflexivity |].
  apply ErrorResponse_init_inv in Hinit.
  destruct Hinit as (Hc & Hm & He & _ & _ & Hd & _).
  cbn in Hc, Hm, He, Hd.
  inversion Hc. inversion Hm. inversion He. inversion Hd. auto.
Qed.

Lemma validation_response_ok request message errs w0 r w' :
  lift (ErrorResponse_init
    [("code", VInt HTTP_422_UNPROCESSABLE_ENTITY);
     ("message", VStr message);
     ("error", VStr "validation_error");
     ("request_id", state_getattr request "request_id");
     ("trace_id", state_getattr request "trace_id");
     ("errors", VList (map VDict (map error_detail_of errs)))]) w0 = (Ok r, w') ->
  code r = 422 /\ er_error r = "validation_error"
  /\ field_opt_errors [("errors", VList (map VDict (map error_detail_of errs)))]
     = Ok (errors r).
Proof.
  intros H. apply lift_ok_inv in H. destruct H as [Hinit _].
  apply ErrorResponse_init_inv in Hinit.
  destruct Hinit as (Hc & _ & He & _ & _ & _ & Hes).
  cbn in Hc, He. inversion Hc. inversion He.
  repeat split. exact Hes.
Qed.

Lemma handle_validation_error_ok request errs w r w' :
  handle_validation_error request errs w = (Ok r, w') ->
  resp_status_code r = 422
  /\ exists resp,
       content r = model_dump_exclude_none resp
       /\ code resp = 422 /\ er_error resp = "validation_error"
       /\ field_opt_errors [("errors", VList (map VDict (map error_detail_of errs)))]
          = Ok (errors resp).
Proof.
  unfold handle_validation_error. intros H.
  bind_inv H. bind_inv H. bind_inv H.
  apply validation_response_ok in Hstep1.
  unfold ret in H. inversion H; subst; clear H. simpl.
  split; [reflexivity |]. exists a1. split; [reflexivity | exact Hstep1].
Qed.

Lemma handle_pydantic_validation_error_ok request errs w r w' :
  handle_pydantic_validation_error request errs w = (Ok r, w') ->
  resp_status_code r = 422
  /\ exists resp,
       content r = model_dump_exclude_none resp
       /\ code resp = 422 /\ er_error resp = "validation_error"
       /\ field_opt_errors [("errors", VList (map VDict (map error_detail_of errs)))]
          = Ok (errors resp).
Proof.
  unfold handle_pydantic_validation_error. intros H.
  bind_inv H. bind_inv H. bind_inv H.
  apply validation_response_ok in Hstep1.
  unfold ret in H. inversion H; subst; clear H. simpl.
  split; [reflexivity |]. exists a1. split; [reflexivity | exact Hstep1].
Qed.

Lemma api_response_code_matches G request exc w r w' :
  handle_api_error G request exc w = (Ok r, w') -> code_matches_status r.
Proof.
  intros H. apply handle_api_error_ok in H.
  destruct H as (Hs & resp & Hc & Hcode & _).
  unfold code_matches_status. rewrite Hc, dump_code, Hcode, Hs. reflexivity.
Qed.

(** C1. Whatever fault a handler is given, and whatever the module-level
    name [get_logger] is bound to, a response that a handler returns has an
    HTTP status equal to the [code] field of its serialized body. *)
Theorem response_status_equals_code :
  forall (G : Globals) (request : Request) (f : Fault) (w : World) (r : JSONResponse),
    result (handle G request f) w = Ok r -> code_matches_status r.
Proof.
  intros G request f w r H.
  apply result_ok_inv in H. destruct H as (w' & H).
  destruct f as [exc | errs | errs | exc | exc]; simpl in H.
  - eapply api_response_code_matches; eassumption.
  - apply handle_validation_error_ok in H.
    destruct H as (Hs & resp & Hc & Hcode & _).
    unfold code_matches_status. rewrite Hc, dump_code, Hcode, Hs. reflexivity.
  - apply handle_pydantic_validation_error_ok in H.
    destruct H as (Hs & resp & Hc & Hcode & _).
    unfold code_matches_status. rewrite Hc, dump_code, Hcode, Hs. reflexivity.
  - unfold handle_app_error in H.
    bind_inv H. bind_inv H. bind_inv H.
    eapply api_response_code_matches; eassumption.
  - unfold handle_generic_exception in H.
    bind_inv H. bind_inv H. bind_inv H.
    eapply api_response_code_matches; eassumption.
Qed.

Lemma response_status_equals_code_witness :
  result (handle error_py request_with_id (FaultRequestValidation two_invalid_fields))
    fresh_world
  = Ok two_invalid_fields_response
  /\ code_matches_status two_invalid_fields_response.
Proof.
  split; [vm_compute; reflexivity |].
  apply (response_status_equals_code error_py request_with_id
           (FaultRequestValidation two_invalid_fields) fresh_world
           two_invalid_fields_response).
  vm_compute. reflexivity.
Defined.

(** ** Constructing an [APIError] *)

Lemma APIError_init_inv status_code message error details headers context w e w' :
  APIError.__init__ status_code message error details headers context w = (Ok e, w') ->
  e = {| status_code := status_code;
         api_message := message;
         api_error :=
           match error with
           | Some s =>
               if String.eqb s "" then APIError._default_error_code status_code else s
           | None => APIError._default_error_code status_code
           end;
         api_details := or_empty details;
         api_context := or_empty context;
         api_headers := headers |}.
Proof.
  unfold APIError.__init__. intros H.
  bind_inv H. bind_inv H. unfold ret in H. inversion H. reflexivity.
Qed.

Lemma APIError_init_returns status_code message error headers context w :
  exists e w',
    APIError.__init__ status_code message error None headers context w = (Ok e, w').
Proof.
  unfold APIError.__init__. simpl or_empty.
  unfold bind at 1. unfold lift, APIError.bind_error_call. simpl.
  match goal with
  | |- context [Logger.error ?m ?ei ?kw] =>
      destruct (Logger_error_returns m ei kw w) as (w1 & H1)
  end.
  rewrite (bind_ok _ _ _ _ _ H1). unfold ret. eauto.
Qed.

Lemma default_code_listed status_code slug :
  In (status_code, slug) slug_table ->
  APIError._default_error_code status_code = slug.
Proof.
  unfold slug_table. simpl. intros H.
  repeat (destruct H as [H | H]; [inversion H; reflexivity |]).
  contradiction.
Qed.

Lemma default_code_unlisted status_code :
  ~ In status_code (map fst slug_table) ->
  APIError._default_error_code status_code = "http_" ++ str_int status_code.
Proof.
  intros H. unfold APIError._default_error_code, APIError.error_codes. simpl.
  repeat match goal with
         | |- context [status_code =? ?k] =>
             destruct (Z.eqb_spec status_code k) as [E | _];
             [exfalso; apply H; rewrite E; simpl; tauto |]
         end.
  reflexivity.
Qed.

(** C3. An [APIError] constructed from a status code and a message alone
    is built without raising, and its [error] is the slug the table of
    section 4.1 gives for a listed status code, and ["http_"] followed by
    the decimal status code for any other. *)
Theorem default_error_slug :
  forall (status_code : Z) (message : string) (w : World),
    exists (e : APIError) (w' : World),
      APIError.__init__ status_code message None None None None w = (Ok e, w')
      /\ (forall slug, In (status_code, slug) slug_table -> api_error e = slug)
      /\ (~ In status_code (map fst slug_table) ->
          api_error e = "http_" ++ str_int status_code).
Proof.
  intros status_code message w.
  destruct (APIError_init_returns status_code message None None None w)
    as (e & w' & H).
  exists e, w'. split; [exact H |].
  apply APIError_init_inv in H. subst e. simpl.
  split; [apply default_code_listed | apply default_code_unlisted].
Qed.

Lemma default_error_slug_witness :
  (exists w', APIError.__init__ 404 "Widget not found" None None None None fresh_world
              = (Ok {| status_code := 404; api_message := "Widget not found";
                       api_error := "not_found"; api_details := [];
                       api_context := []; api_headers := None |}, w'))
  /\ (exists w', APIError.__init__ 418 "teapot" None None None None fresh_world
                 = (Ok {| status_code := 418; api_message := "teapot";
                          api_error := "http_418"; api_details := [];
                          api_context := []; api_headers := None |}, w')).
Proof.
  split.
  - destruct (default_error_slug 404 "Widget not found" fresh_world)
      as (e & w' & H & Hin & _).
    exists w'. rewrite H. f_equal. f_equal.
    pose proof (APIError_init_inv _ _ _ _ _ _ _ _ _ H) as He.
    rewrite He. reflexivity.
  - destruct (default_error_slug 418 "teapot" fresh_world)
      as (e & w' & H & _ & Hout).
    exists w'. rewrite H. f_equal. f_equal.
    pose proof (APIError_init_inv _ _ _ _ _ _ _ _ _ H) as He.
    rewrite He. reflexivity.
Defined.

(** ** [handle_app_error] *)

Lemma call_get_logger_unbound request w :
  call_get_logger error_py request w = (Raise (NameError "get_logger"), w).
Proof. reflexivity. Qed.

Lemma handle_api_error_unbound request exc w :
  handle_api_error error_py request exc w = (Raise (NameError "get_logger"), w).
Proof.
  unfold handle_api_error.
  apply bind_raise. apply call_get_logger_unbound.
Qed.

(** C2. In the module as it is written, [handle_app_error] returns no
    response: it ends in [handle_api_error], whose first statement calls
    [get_logger], a name the module never binds.  For every request, every
    [AppError] and every state of the logger the call raises; for the
    [AppError("X failed")] of the spec on a request that carries a
    correlation id the exception is [NameError]. *)
Theorem handle_app_error_raises :
  (forall (request : Request) (exc : AppError) (w : World),
     returns (result (handle_app_error error_py request exc) w) = false)
  /\ result (handle_app_error error_py request_with_id x_failed) fresh_world
     = Raise (NameError "get_logger").
Proof.
  split; [| vm_compute; reflexivity].
  intros request exc w. unfold result.
  destruct (handle_app_error error_py request exc w) as [[r | e] w'] eqn:H;
    [exfalso | reflexivity].
  unfold handle_app_error in H.
  bind_inv H. bind_inv H. bind_inv H.
  rewrite handle_api_error_unbound in H. discriminate H.
Qed.

(** With [get_logger] bound to [get_request_logger], a response that
    [handle_app_error] returns is the one section 7 of the spec describes. *)
Lemma handle_app_error_bound_ok request exc w r w' :
  handle_app_error error_py_bound request exc w = (Ok r, w') ->
  resp_status_code r = 500
  /\ dict_get (content r) "error" = Some (VStr "internal_server_error")
  /\ dict_get (content r) "message" = Some (VStr "An internal server error occurred")
  /\ exists d,
       dict_get (content r) "details" = Some (VDict d)
       /\ dict_get d "app_error_message" = Some (VStr (ae_message exc))
       /\ dict_get d "app_error_code" = Some (opt_str (error_code exc)).
Proof.
  unfold handle_app_error. intros H.
  bind_inv H. bind_inv H. bind_inv H.
  unfold APIError.internal_server_error in Hstep1.
  apply APIError_init_inv in Hstep1. subst a1.
  apply handle_api_error_ok in H.
  destruct H as (Hs & resp & Hc & _ & Hm & He & Hd).
  simpl in Hs, Hm, He, Hd.
  rewrite Hc, dump_error, dump_message, dump_details, Hs, Hm, He, Hd.
  repeat split. simpl option_map. eexists. split; [reflexivity |].
  split; reflexivity.
Qed.

Example handle_app_error_bound_run :
  result (handle_app_error error_py_bound request_with_id x_failed) fresh_world
  = Ok {| resp_status_code := 500;
          content :=
            [("code", VInt 500);
             ("message", VStr "An internal server error occurred");
             ("error", VStr "internal_server_error");
             ("request_id", VStr "req-1");
             ("details",
              VDict [("app_error_message", VStr "X failed");
                     ("app_error_code", VNone);
                     ("request_id", VStr "req-1");
                     ("trace_id", VNone)])];
          resp_headers := [] |}.
Proof. vm_compute. reflexivity. Qed.

(** ** [handle_validation_error] *)

Lemma ErrorDetail_init_dump e :
  ErrorDetail_init (ErrorDetail_model_dump e) = Ok e.
Proof. destruct e as [[l |] m t [c |]]; reflexivity. Qed.

Lemma ErrorDetail_list_dump es :
  ErrorDetail_list (map VDict (map ErrorDetail_model_dump es)) = Ok es.
Proof.
  induction es as [| e es IH]; simpl; [reflexivity |].
  rewrite ErrorDetail_init_dump. simpl. rewrite IH. reflexivity.
Qed.

Lemma error_details_validate errs :
  field_opt_errors [("errors", VList (map VDict (map error_detail_of errs)))]
  = Ok (Some (map detail_of errs)).
Proof.
  unfold field_opt_errors. simpl.
  replace (map error_detail_of errs)
    with (map ErrorDetail_model_dump (map detail_of errs))
    by (rewrite map_map; reflexivity).
  rewrite ErrorDetail_list_dump. reflexivity.
Qed.


Lemma validation_response_returns request message errs rid w :
  dict_get (state request) "request_id" = Some rid ->
  is_opt_str rid = true ->
  is_opt_str (state_getattr request "trace_id") = true ->
  exists resp,
    lift (ErrorResponse_init
      [("code", VInt HTTP_422_UNPROCESSABLE_ENTITY);
       ("message", VStr message);
       ("error", VStr "validation_error");
       ("request_id", state_getattr request "request_id");
       ("trace_id", state_getattr request "trace_id");
       ("errors", VList (map VDict (map error_detail_of errs)))]) w = (Ok resp, w).
Proof.
  intros Hrid Hok Htid. unfold lift, ErrorResponse_init.
  pose proof (error_details_validate errs) as Hes.
  unfold field_opt_errors in *. cbn in Hes |- *.
  unfold state_getattr in *. rewrite Hrid.
  destruct rid; try discriminate Hok;
    destruct (dict_get (state request) "trace_id") as [[] |];
    try discriminate Htid; cbn; rewrite Hes; cbn; eauto.
Qed.

Lemma RequestLogger_warning_returns request message kwargs rid w :
  dict_get (state request) "request_id" = Some rid ->
  exists w',
    RequestLogger.warning {| rl_request := request |} message kwargs w = (Ok tt, w').
Proof.
  intros Hrid. unfold RequestLogger.warning, state_attr. simpl. rewrite Hrid.
  unfold bind, ret. apply PyLogger_log_returns.
Qed.




Example validation_error_locations :
  result (handle_validation_error request_with_id two_invalid_fields) fresh_world
  = Ok two_invalid_fields_response.
Proof. vm_compute. reflexivity. Qed.

(** ** Dicts *)

Lemma dict_get_set_same d k v : dict_get (dict_set d k v) k = Some v.
Proof.
  induction d as [| [k' v'] d IH]; simpl.
  - rewrite String.eqb_refl. reflexivity.
  - destruct (String.eqb k k') eqn:E; simpl; rewrite E; [reflexivity | exact IH].
Qed.

Lemma dict_get_set_other d k k' v :
  k <> k' -> dict_get (dict_set d k' v) k = dict_get d k.
Proof.
  intros Hne. induction d as [| [k0 v0] d IH]; simpl.
  - destruct (String.eqb_spec k k'); [contradiction | reflexivity].
  - destruct (String.eqb_spec k' k0) as [-> | Hk0]; simpl.
    + destruct (String.eqb_spec k k0); [contradiction | reflexivity].
    + destruct (String.eqb k k0); [reflexivity | exact IH].
Qed.




Lemma dict_get_update_notin e : forall d k,
  ~ In k (dict_keys e) -> dict_get (dict_update d e) k = dict_get d k.
Proof.
  unfold dict_update.
  induction e as [| [k0 v0] e IH]; simpl; intros d k Hnotin; [reflexivity |].
  rewrite IH by (intros Hin; apply Hnotin; right; exact Hin).
  apply dict_get_set_other. intros ->. apply Hnotin. left. reflexivity.
Qed.

Lemma dict_get_update_in e : forall d k v,
  dict_wf e -> dict_get e k = Some v -> dict_get (dict_update d e) k = Some v.
Proof.
  unfold dict_wf.
  induction e as [| [k0 v0] e IH]; simpl; intros d k v Hwf Hget; [discriminate |].
  inversion Hwf as [| ? ? Hnotin Hrest]; subst.
  destruct (String.eqb_spec k k0) as [-> | Hne].
  - inversion Hget; subst.
    change (dict_get (dict_update (dict_set d k0 v) e) k0 = Some v).
    rewrite dict_get_update_notin by exact Hnotin.
    apply dict_get_set_same.
  - change (dict_get (dict_update (dict_set d k0 v0) e) k = Some v).
    apply IH; assumption.
Qed.


(** ** What a log call does to the world *)

Lemma emit_app_logger h record w :
  app_logger (Handler_emit h record w) = app_logger w.
Proof.
  unfold Handler_emit.
  destruct (h_formatter h); [destruct (JSONFormatter_format record) |]; reflexivity.
Qed.

Lemma emit_all_app_logger record hs : forall w,
  app_logger (fold_left (fun w' h => Handler_emit h record w') hs w) = app_logger w.
Proof.
  induction hs as [| h hs IH]; simpl; intros w; [reflexivity |].
  rewrite IH. apply emit_app_logger.
Qed.

Lemma PyLogger_log_app_logger lvl lvlname func line msg ei extra w :
  app_logger (snd (PyLogger_log lvl lvlname func line msg ei extra w)) = app_logger w.
Proof.
  unfold PyLogger_log. destruct (getEffectiveLevel w <=? lvl); simpl;
    [apply emit_all_app_logger | reflexivity].
Qed.


(** ** [Logger.setup] *)

Lemma setup_unknown_level app log_level json_format w :
  nameToLevel (upper log_level) = None ->
  Logger.setup app log_level json_format w
  = (Raise (ValueError ("Unknown level: '" ++ upper log_level ++ "'")), w).
Proof.
  intros Hn. unfold Logger.setup. apply bind_raise.
  unfold setLevel. rewrite Hn. reflexivity.
Qed.

Lemma setup_known_level app log_level json_format n w :
  nameToLevel (upper log_level) = Some n ->
  app_logger (world_after (Logger.setup app log_level json_format) w)
  = {| lg_level := n;
       lg_handlers :=
         [{| h_formatter := if json_format then JSONFormatter else PlainFormatter |}];
       lg_propagate := false |}.
Proof.
  intros Hn. unfold world_after, Logger.setup.
  unfold bind at 1. unfold setLevel at 1. rewrite Hn.
  unfold bind, set_handlers, set_propagate, addHandler, ret.
  destruct app; simpl; rewrite PyLogger_log_app_logger; reflexivity.
Qed.

(** C9, as the code has it.  After two calls of [setup] of which at least
    one is given a [log_level] that names a logging level, the application
    logger has exactly one handler.  A call whose level is not recognised
    raises in [setLevel], before the handlers are touched. *)
Theorem setup_twice_one_handler :
  forall (app1 : bool) (level1 : string) (json1 : bool)
         (app2 : bool) (level2 : string) (json2 : bool) (w : World),
    nameToLevel (upper level1) <> None \/ nameToLevel (upper level2) <> None ->
    List.length (lg_handlers (app_logger
      (setup_twice app1 level1 json1 app2 level2 json2 w))) = 1%nat.
Proof.
  intros app1 level1 json1 app2 level2 json2 w Hvalid. unfold setup_twice.
  destruct (nameToLevel (upper level2)) as [n2 |] eqn:H2.
  - rewrite (setup_known_level _ _ _ n2) by exact H2. reflexivity.
  - unfold world_after at 1. rewrite setup_unknown_level by exact H2. simpl.
    destruct (nameToLevel (upper level1)) as [n1 |] eqn:H1.
    + rewrite (setup_known_level _ _ _ n1) by exact H1. reflexivity.
    + destruct Hvalid as [Hv | Hv]; exfalso; apply Hv; reflexivity.
Qed.

Lemma setup_twice_one_handler_witness :
  List.length (lg_handlers (app_logger
    (setup_twice true "info" true false "debug" false fresh_world))) = 1%nat.
Proof.
  apply (setup_twice_one_handler true "info" true false "debug" false fresh_world).
  left. vm_compute. discriminate.
Defined.

(** C9, as the spec states it, fails: two calls with a level name that
    [logging] does not know both raise [ValueError] and leave a logger that
    had no handler without one. *)
Lemma setup_twice_unknown_level :
  result (Logger.setup false "verbose" true) fresh_world
  = Raise (ValueError "Unknown level: 'VERBOSE'")
  /\ lg_handlers (app_logger
       (setup_twice false "verbose" true false "verbose" true fresh_world)) = []
  /\ List.length (lg_handlers (app_logger
       (setup_twice false "verbose" true false "verbose" true fresh_world))) <> 1%nat.
Proof.
  split; [vm_compute; reflexivity |].
  split; [vm_compute; reflexivity | vm_compute; discriminate].
Qed.

(** ** Which logging calls return *)

Lemma Logger_call_returns m message ei kwargs w :
  exists w', Logger_call m message ei kwargs w = (Ok tt, w').
Proof.
  destruct (get_logger_returns w) as (w1 & H1).
  destruct m; simpl;
    unfold Logger.info, Logger.error, Logger.warning, Logger.debug, Logger.critical;
    rewrite (bind_ok _ _ _ _ _ H1); apply PyLogger_log_returns.
Qed.

Lemma RequestLogger_call_returns m request message ei kwargs rid w :
  dict_get (state request) "request_id" = Some rid ->
  exists w',
    RequestLogger_call m {| rl_request := request |} message ei kwargs w = (Ok tt, w').
Proof.
  intros Hrid.
  destruct m; simpl;
    unfold RequestLogger.info, RequestLogger.error, RequestLogger.warning,
      RequestLogger.debug, RequestLogger.critical, state_attr;
    simpl; rewrite Hrid; unfold bind, ret; apply PyLogger_log_returns.
Qed.

(** Without a stored correlation id every operation of the request-scoped
    logger raises, before anything is logged. *)
Lemma RequestLogger_call_missing_id m request message ei kwargs w :
  dict_get (state request) "request_id" = None ->
  RequestLogger_call m {| rl_request := request |} message ei kwargs w
  = (Raise (AttributeError "State" "request_id"), w).
Proof.
  intros Hrid.
  destruct m; simpl;
    unfold RequestLogger.info, RequestLogger.error, RequestLogger.warning,
      RequestLogger.debug, RequestLogger.critical, state_attr;
    simpl; rewrite Hrid; reflexivity.
Qed.




(** ** The correlation id in the entries of the request-scoped logger *)





Example spoofed_request_id_overwritten :
  stdout (world_after
            (RequestLogger_call m_info {| rl_request := request_with_id |}
               "Fetching user profile" EI_False spoofed_kwargs)
            world_after_setup)
  = [JSONLine [("level", VStr "INFO");
               ("timestamp", VStr "2025-01-01T00:00:00+00:00");
               ("message", VStr "Logger initialized with level: INFO");
               ("module", VStr "logger"); ("function", VStr "setup");
               ("line", VInt 141)];
     JSONLine [("level", VStr "INFO");
               ("timestamp", VStr "2025-01-01T00:00:00+00:00");
               ("message", VStr "Fetching user profile");
               ("module", VStr "logger"); ("function", VStr "info");
               ("line", VInt 180);
               ("user_id", VStr "123");
               ("request_id", VStr "req-1")]].
Proof. vm_compute. reflexivity. Qed.

(** ** Serializing an [ErrorResponse] and building it again *)

Lemma ErrorDetail_init_dump_exclude_none e :
  ErrorDetail_init (ErrorDetail_model_dump_exclude_none e) = Ok e.
Proof. destruct e as [[l |] m t [c |]]; reflexivity. Qed.

Lemma ErrorDetail_list_dump_exclude_none es :
  ErrorDetail_list (map (fun e => VDict (ErrorDetail_model_dump_exclude_none e)) es)
  = Ok es.
Proof.
  induction es as [| e es IH]; simpl; [reflexivity |].
  rewrite ErrorDetail_init_dump_exclude_none. simpl. rewrite IH. reflexivity.
Qed.

Lemma ErrorResponse_round_trip r :
  ErrorResponse_init (model_dump_exclude_none r) = Ok r.
Proof.
  destruct r as [c m e [rid |] [tid |] [det |] [errs |]];
    unfold ErrorResponse_init, field_opt_errors; cbn;
    rewrite ?ErrorDetail_list_dump_exclude_none; reflexivity.
Qed.

Lemma dump_keys_are_set_fields r k :
  dict_mem (model_dump_exclude_none r) k = field_is_set r k.
Proof.
  unfold dict_mem, field_is_set, model_dump_exclude_none.
  destruct (request_id r), (trace_id r), (details r), (errors r); simpl;
    repeat match goal with
           | |- context [String.eqb k ?s] =>
               destruct (String.eqb_spec k s) as [-> | _]; simpl
           end; reflexivity.
Qed.

Lemma dump_has_no_null r k v :
  In (k, v) (model_dump_exclude_none r) -> v <> VNone.
Proof.
  unfold model_dump_exclude_none.
  destruct (request_id r), (trace_id r), (details r), (errors r); simpl;
    intros H;
    repeat (destruct H as [H | H]; [inversion H; discriminate |]);
    contradiction.
Qed.

Lemma detail_dump_has_no_null e k v :
  In (k, v) (ErrorDetail_model_dump_exclude_none e) -> v <> VNone.
Proof.
  unfold ErrorDetail_model_dump_exclude_none.
  destruct (location e), (ed_code e); simpl; intros H;
    repeat (destruct H as [H | H]; [inversion H; discriminate |]);
    contradiction.
Qed.

(** C7. Building an [ErrorResponse] from its own dump gives the same
    [ErrorResponse] back; the keys of the dump are exactly the fields that
    hold a value, and no key of the dump, nor of the dump of one of its
    [errors], is bound to [None]. *)
Theorem error_response_round_trip :
  forall r : ErrorResponse,
    ErrorResponse_init (model_dump_exclude_none r) = Ok r
    /\ (forall k, dict_mem (model_dump_exclude_none r) k = field_is_set r k)
    /\ (forall k v, In (k, v) (model_dump_exclude_none r) -> v <> VNone)
    /\ (forall e k v, In (k, v) (ErrorDetail_model_dump_exclude_none e) -> v <> VNone).
Proof.
  intros r. split; [apply ErrorResponse_round_trip |].
  split; [apply dump_keys_are_set_fields |].
  split; [apply dump_has_no_null | apply detail_dump_has_no_null].
Qed.

(** ** The weather adapter *)

Lemma AppError_init_returns message oe w :
  exists w',
    AppError_init message (Some oe) None None w
    = (Ok {| ae_message := message; original_error := Some oe;
             ae_context := []; error_code := None |}, w').
Proof.
  unfold AppError_init. simpl.
  match goal with
  | |- context [Logger.error ?m ?ei ?kw] =>
      destruct (Logger_error_returns m ei kw w) as (w1 & H1)
  end.
  rewrite (bind_ok _ _ _ _ _ H1). unfold ret. eauto.
Qed.

Lemma weather_api_error location up sc message w :
  (forall w0, get_weather_data location up w0
     = bind (APIError.__init__ sc message None None None None)
         (fun e => ret (RaisedAPIError e)) w0) ->
  exists e w',
    get_weather_data location up w = (Ok (RaisedAPIError e), w')
    /\ sc = status_code e /\ api_message e = message.
Proof.
  intros Hdef. rewrite Hdef.
  destruct (APIError_init_returns sc message None None None w)
    as (e & w' & H).
  rewrite (bind_ok _ _ _ _ _ H). exists e, w'.
  apply APIError_init_inv in H. subst e. simpl. auto.
Qed.

Lemma weather_app_error location up exc w :
  (forall w0, get_weather_data location up w0
     = bind (AppError_init "Failed to fetch weather data" (Some exc) None None)
         (fun e => ret (RaisedAppError e)) w0) ->
  exists e w',
    get_weather_data location up w = (Ok (RaisedAppError e), w')
    /\ ae_message e = "Failed to fetch weather data"
    /\ original_error e = Some exc.
Proof.
  intros Hdef. rewrite Hdef.
  destruct (AppError_init_returns "Failed to fetch weather data" exc w) as (w' & H).
  rewrite (bind_ok _ _ _ _ _ H). unfold ret. eauto.
Qed.

(** C5. [get_weather_data(location)] ends in a classified fault for each
    kind of upstream failure: a timeout in an [APIError] with status 504
    and message "Weather API timed out"; an upstream 404 in an [APIError]
    with status 404 and message "Weather data for <location> not found"; an
    upstream 401 in an [APIError] with status 400 and message "Invalid API
    key"; any other upstream exception in an [AppError] with message
    "Failed to fetch weather data" that wraps the original fault. *)
Theorem weather_failures_classified :
  forall (location : string) (exc : PyExc) (w : World),
    (exists e w',
       get_weather_data location (UpstreamTimeout exc) w = (Ok (RaisedAPIError e), w')
       /\ 504 = status_code e /\ api_message e = "Weather API timed out")
    /\ (exists e w',
          get_weather_data location (UpstreamHTTPError 404 exc) w
          = (Ok (RaisedAPIError e), w')
          /\ 404 = status_code e
          /\ api_message e = "Weather data for " ++ location ++ " not found")
    /\ (exists e w',
          get_weather_data location (UpstreamHTTPError 401 exc) w
          = (Ok (RaisedAPIError e), w')
          /\ 400 = status_code e /\ api_message e = "Invalid API key")
    /\ (forall status, status <> 404 -> status <> 401 ->
        exists e w',
          get_weather_data location (UpstreamHTTPError status exc) w
          = (Ok (RaisedAppError e), w')
          /\ ae_message e = "Failed to fetch weather data"
          /\ original_error e = Some exc)
    /\ (exists e w',
          get_weather_data location (UpstreamException exc) w
          = (Ok (RaisedAppError e), w')
          /\ ae_message e = "Failed to fetch weather data"
          /\ original_error e = Some exc).
Proof.
  intros location exc w.
  split; [apply weather_api_error; reflexivity |].
  split; [apply weather_api_error; reflexivity |].
  split; [apply weather_api_error; reflexivity |].
  split; [| apply weather_app_error; reflexivity].
  intros status H404 H401. apply weather_app_error. intros w0. simpl.
  destruct (Z.eqb_spec status 404); [contradiction |].
  destruct (Z.eqb_spec status 401); [contradiction | reflexivity].
Qed.

Lemma weather_failures_classified_witness :
  exists e w',
    get_weather_data "Dhaka" (UpstreamHTTPError 500 connection_error) fresh_world
    = (Ok (RaisedAppError e), w')
    /\ ae_message e = "Failed to fetch weather data"
    /\ original_error e = Some connection_error.
Proof.
  destruct (weather_failures_classified "Dhaka" connection_error fresh_world)
    as (_ & _ & _ & Hother & _).
  apply (Hother 500); discriminate.
Defined.

Lemma round_half_up_nearest (q : Q) :
  (inject_Z (round_half_up q) <= q + (1 # 2))%Q
  /\ (q + (1 # 2) < inject_Z (round_half_up q) + 1)%Q.
Proof.
  unfold round_half_up. split.
  - apply Qfloor_le.
  - pose proof (Qlt_floor (q + (1 # 2))) as H.
    rewrite inject_Z_plus in H. exact H.
Qed.

(** C8. On a reading [get_weather_data] returns the temperature as a
    string, the whole degree nearest to the reading with a half rounded up,
    and the unit ["c"]; for the reading 25.5 it returns exactly
    [{temperature: "26", temp_unit: "c"}]. *)
Theorem weather_temperature_rounded :
  forall (location : string) (temp : Q) (w : World),
    get_weather_data location (UpstreamReading temp) w
    = (Ok (Returned {| temperature := str_int (round_half_up temp);
                       temp_unit := "c" |}), w)
    /\ (inject_Z (round_half_up temp) <= temp + (1 # 2))%Q
    /\ (temp + (1 # 2) < inject_Z (round_half_up temp) + 1)%Q
    /\ get_weather_data location (UpstreamReading (255 # 10)) w
       = (Ok (Returned {| temperature := "26"; temp_unit := "c" |}), w).
Proof.
  intros location temp w.
  split; [reflexivity |].
  split; [apply round_half_up_nearest |].
  split; [apply round_half_up_nearest | reflexivity].
Qed.

(** ** Requests that went through the middleware *)

(** The middleware leaves every request with a string correlation id, the
    condition under which the request-scoped logger returns. *)
Lemma dispatch_enter_tags x_request_id uuid4 request w :
  exists request' w' rid,
    dispatch_enter x_request_id uuid4 request w = (Ok request', w')
    /\ dict_get (state request') "request_id" = Some (VStr rid)
    /\ rid = match x_request_id with Some h => h | None => uuid4 end.
Proof.
  unfold dispatch_enter.
  match goal with
  | |- context [Logger.info ?m ?kw] =>
      destruct (Logger_call_returns m_info m EI_False kw w) as (w1 & H1)
  end.
  simpl in H1. rewrite (bind_ok _ _ _ _ _ H1). unfold ret.
  eexists. exists w1. eexists. split; [reflexivity |].
  split; [apply dict_get_set_same | reflexivity].
Qed.

Example not_found_widget :
  result (APIError.not_found (Some "Widget") None None None None) fresh_world
  = Ok {| status_code := 404; api_message := "Widget not found";
          api_error := "not_found"; api_details := []; api_context := [];
          api_headers := None |}.
Proof. vm_compute. reflexivity. Qed.

(** * Further properties of [core/error.py] *)

(** ** Handlers on a request without a correlation id *)

Lemma RequestLogger_warning_missing_id request message kwargs w :
  dict_get (state request) "request_id" = None ->
  RequestLogger.warning {| rl_request := request |} message kwargs w
  = (Raise (AttributeError "State" "request_id"), w).
Proof.
  intros H.
  exact (RequestLogger_call_missing_id m_warning request message EI_False kwargs w H).
Qed.

Lemma RequestLogger_error_missing_id request message ei kwargs w :
  dict_get (state request) "request_id" = None ->
  RequestLogger.error {| rl_request := request |} message ei kwargs w
  = (Raise (AttributeError "State" "request_id"), w).
Proof.
  intros H.
  exact (RequestLogger_call_missing_id m_error request message ei kwargs w H).
Qed.

(** X1. The four handlers that log through [get_request_logger] read the
    correlation id with a default for the response, but their first log
    call reads it without one: on a request whose state has no
    [request_id] each of them raises [AttributeError], whatever the fault
    and whatever [get_logger] is bound to. *)
Theorem handlers_need_request_id :
  forall (G : Globals) (request : Request) (f : Fault) (w : World),
    dict_get (state request) "request_id" = None ->
    (forall exc, f <> FaultAPIError exc) ->
    result (handle G request f) w = Raise (AttributeError "State" "request_id").
Proof.
  intros G request f w Hrid Hf.
  destruct (get_request_logger_returns request w) as (w1 & H1).
  unfold result.
  destruct f as [exc | errs | errs | exc | exc]; simpl.
  - exfalso. apply (Hf exc). reflexivity.
  - unfold handle_validation_error. rewrite (bind_ok _ _ _ _ _ H1).
    erewrite bind_raise; [reflexivity |].
    apply RequestLogger_warning_missing_id. exact Hrid.
  - unfold handle_pydantic_validation_error. rewrite (bind_ok _ _ _ _ _ H1).
    erewrite bind_raise; [reflexivity |].
    apply RequestLogger_warning_missing_id. exact Hrid.
  - unfold handle_app_error. rewrite (bind_ok _ _ _ _ _ H1).
    erewrite bind_raise; [reflexivity |].
    apply RequestLogger_error_missing_id. exact Hrid.
  - unfold handle_generic_exception. rewrite (bind_ok _ _ _ _ _ H1).
    erewrite bind_raise; [reflexivity |].
    apply RequestLogger_error_missing_id. exact Hrid.
Qed.

Lemma handlers_need_request_id_witness :
  result (handle error_py_bound request_without_id
            (FaultRequestValidation two_invalid_fields)) fresh_world
  = Raise (AttributeError "State" "request_id").
Proof.
  apply (handlers_need_request_id error_py_bound request_without_id
           (FaultRequestValidation two_invalid_fields) fresh_world).
  - reflexivity.
  - intros exc. discriminate.
Defined.

(** ** [APIError.from_exception] *)

Lemma last5_length {A : Type} (l : list A) : (List.length (APIError.last5 l) <= 5)%nat.
Proof.
  unfold APIError.last5. destruct (Nat.ltb_spec 5 (List.length l)).
  - rewrite length_skipn. lia.
  - assumption.
Qed.

Lemma last5_suffix {A : Type} (l : list A) :
  exists dropped, l = (dropped ++ APIError.last5 l)%list.
Proof.
  unfold APIError.last5. destruct (5 <? List.length l)%nat.
  - exists (firstn (List.length l - 5) l). symmetry. apply firstn_skipn.
  - exists []. reflexivity.
Qed.

Lemma last5_short {A : Type} (l : list A) :
  (List.length l <= 5)%nat -> APIError.last5 l = l.
Proof.
  intros H. unfold APIError.last5. destruct (Nat.ltb_spec 5 (List.length l)); [lia | reflexivity].
Qed.

Lemma from_exception_returns exc status_code context w :
  exists e w', APIError.from_exception exc status_code context w = (Ok e, w').
Proof.
  unfold APIError.from_exception, bind at 1, get_world.
  unfold APIError.__init__. simpl or_empty.
  unfold bind at 1, lift, APIError.bind_error_call.
  destruct (exc_cause exc); cbn;
    match goal with
    | |- context [Logger.error ?m ?ei ?kw] =>
        destruct (Logger_error_returns m ei kw w) as (w1 & H1)
    end;
    rewrite (bind_ok _ _ _ _ _ H1); unfold ret; eauto.
Qed.

Lemma from_exception_inv exc sc context w e w' :
  APIError.from_exception exc sc context w = (Ok e, w') ->
  status_code e = sc
  /\ api_message e
     = (if String.eqb (exc_str exc) "" then "An unexpected error occurred"
        else exc_str exc)
  /\ api_error e
     = match exc_error_code exc with
       | Some c => if String.eqb c "" then APIError._default_error_code sc else c
       | None => APIError._default_error_code sc
       end
  /\ dict_get (api_details e) "type" = Some (VStr (exc_type exc))
  /\ dict_get (api_details e) "traceback_summary"
     = Some (VList (map VStr (APIError.last5 (format_exc_lines w))))
  /\ dict_get (api_details e) "cause" = option_map chain_entry (exc_cause exc).
Proof.
  unfold APIError.from_exception. intros H.
  bind_inv H. unfold get_world in Hstep. inversion Hstep; subst; clear Hstep.
  apply APIError_init_inv in H. subst e. simpl.
  split; [reflexivity |]. split; [reflexivity |].
  split.
  { destruct (exc_error_code exc) as [c |].
    - destruct (String.eqb_spec c "") as [-> | Hc].
      + destruct (String.eqb (APIError._default_error_code sc) ""); reflexivity.
      + destruct (String.eqb_spec c ""); [contradiction | reflexivity].
    - destruct (String.eqb (APIError._default_error_code sc) ""); reflexivity. }
  destruct (exc_cause exc); repeat split; reflexivity.
Qed.

Lemma default_code_nonempty sc : APIError._default_error_code sc <> "".
Proof.
  unfold APIError._default_error_code.
  destruct (APIError.lookup_code APIError.error_codes sc) as [slug |] eqn:H;
    [| discriminate].
  unfold APIError.error_codes in H. simpl in H.
  repeat match type of H with
         | (if ?b then _ else _) = _ =>
             destruct b; [inversion H; discriminate |]
         end.
  discriminate H.
Qed.

(** X2. [APIError.from_exception] never raises.  The error it builds has
    the given status, a message that is [str(exc)] or, when that is empty,
    "An unexpected error occurred", and as slug the exception's own
    non-empty [error_code] or else the slug of the status; neither the
    message nor the slug is ever empty. *)
Theorem from_exception_classifies :
  forall (exc : PyExc) (sc : Z) (context : option dict) (w : World),
    exists (e : APIError) (w' : World),
      APIError.from_exception exc sc context w = (Ok e, w')
      /\ status_code e = sc
      /\ api_message e <> "" /\ api_error e <> ""
      /\ (exc_str exc <> "" -> api_message e = exc_str exc)
      /\ (exc_str exc = "" -> api_message e = "An unexpected error occurred")
      /\ (forall c, exc_error_code exc = Some c -> c <> "" -> api_error e = c)
      /\ (exc_error_code exc = None \/ exc_error_code exc = Some "" ->
          api_error e = APIError._default_error_code sc).
Proof.
  intros exc sc context w.
  destruct (from_exception_returns exc sc context w) as (e & w' & H).
  exists e, w'. split; [exact H |].
  apply from_exception_inv in H. destruct H as (Hs & Hm & He & _).
  split; [exact Hs |]. rewrite Hm, He.
  split.
  { destruct (String.eqb_spec (exc_str exc) ""); [discriminate | assumption]. }
  split.
  { destruct (exc_error_code exc) as [c |]; [| apply default_code_nonempty].
    destruct (String.eqb_spec c ""); [apply default_code_nonempty | assumption]. }
  split.
  { intros Hne. destruct (String.eqb_spec (exc_str exc) ""); [contradiction | reflexivity]. }
  split.
  { intros ->. reflexivity. }
  split.
  { intros c -> Hc. destruct (String.eqb_spec c ""); [contradiction | reflexivity]. }
  intros [-> | ->]; reflexivity.
Qed.

Lemma from_exception_classifies_witness :
  exists (e : APIError) (w' : World),
    APIError.from_exception connection_error 500 None fresh_world = (Ok e, w')
    /\ api_message e = "Something went wrong"
    /\ api_error e = "internal_server_error".
Proof.
  destruct (from_exception_classifies connection_error 500 None fresh_world)
    as (e & w' & H & _ & _ & _ & Hm & _ & _ & He).
  exists e, w'. split; [exact H |].
  split; [apply Hm; discriminate | apply He; left; reflexivity].
Defined.

(** X3. The traceback that [from_exception] puts into [details] is bounded:
    [traceback_summary] holds at most five lines, they are the last lines
    of the formatted traceback, and all of it when it has five lines or
    fewer.  [details] names a [cause] exactly when the exception has one. *)
Theorem from_exception_traceback_bounded :
  forall (exc : PyExc) (sc : Z) (context : option dict) (w w' : World) (e : APIError),
    APIError.from_exception exc sc context w = (Ok e, w') ->
    exists summary dropped : list string,
      dict_get (api_details e) "traceback_summary" = Some (VList (map VStr summary))
      /\ (List.length summary <= 5)%nat
      /\ format_exc_lines w = (dropped ++ summary)%list
      /\ ((List.length (format_exc_lines w) <= 5)%nat -> dropped = [])
      /\ (dict_mem (api_details e) "cause" = true <-> exc_cause exc <> None).
Proof.
  intros exc sc context w w' e H.
  apply from_exception_inv in H. destruct H as (_ & _ & _ & _ & Htb & Hcause).
  destruct (last5_suffix (format_exc_lines w)) as (dropped & Hsuffix).
  exists (APIError.last5 (format_exc_lines w)), dropped.
  split; [exact Htb |]. split; [apply last5_length |].
  split; [exact Hsuffix |]. split.
  - intros Hshort. rewrite (last5_short _ Hshort) in Hsuffix.
    destruct dropped as [| x dropped]; [reflexivity |].
    apply (f_equal (@List.length string)) in Hsuffix.
    rewrite length_app in Hsuffix. simpl in Hsuffix. lia.
  - unfold dict_mem. rewrite Hcause.
    destruct (exc_cause exc); simpl; split; intros H; congruence.
Qed.

Lemma from_exception_traceback_bounded_witness :
  exists summary dropped : list string,
    dict_get
      (api_details
         (match result (APIError.from_exception chained_error 500 None) fresh_world with
          | Ok e => e
          | Raise _ => {| status_code := 0; api_message := ""; api_error := "";
                          api_details := []; api_context := []; api_headers := None |}
          end)) "traceback_summary" = Some (VList (map VStr summary))
    /\ (List.length summary <= 5)%nat
    /\ format_exc_lines fresh_world = (dropped ++ summary)%list.
Proof.
  destruct (from_exception_returns chained_error 500 None fresh_world)
    as (e & w' & H).
  destruct (from_exception_traceback_bounded chained_error 500 None fresh_world w' e H)
    as (summary & dropped & Htb & Hlen & Hsuf & _).
  exists summary, dropped. unfold result. rewrite H. simpl. auto.
Defined.

(** ** The handlers that end in [handle_api_error] *)

Lemma RequestLogger_error_returns request message ei kwargs rid w :
  dict_get (state request) "request_id" = Some rid ->
  exists w',
    RequestLogger.error {| rl_request := request |} message ei kwargs w = (Ok tt, w').
Proof.
  intros H.
  exact (RequestLogger_call_returns m_error request message ei kwargs rid w H).
Qed.

(** X4. In the module as it is written [handle_api_error] raises
    [NameError] for the unbound [get_logger] before it logs or builds
    anything, and so does [handle_generic_exception], which ends in it: on
    a request that carries a correlation id an unhandled exception is
    logged and classified and is then answered with [NameError], not with a
    500 response. *)
Theorem generic_handler_raises_NameError :
  forall (request : Request) (exc : PyExc) (rid : value) (w : World),
    dict_get (state request) "request_id" = Some rid ->
    result (handle_generic_exception error_py request exc) w
    = Raise (NameError "get_logger")
    /\ forall api_exc : APIError,
         handle_api_error error_py request api_exc w
         = (Raise (NameError "get_logger"), w).
Proof.
  intros request exc rid w Hrid.
  split; [| intros api_exc; apply handle_api_error_unbound].
  unfold result, handle_generic_exception.
  destruct (get_request_logger_returns request w) as (w1 & H1).
  rewrite (bind_ok _ _ _ _ _ H1).
  match goal with
  | |- context [RequestLogger.error ?rl ?m ?ei ?kw] =>
      destruct (RequestLogger_error_returns request m ei kw rid w1 Hrid) as (w2 & H2)
  end.
  rewrite (bind_ok _ _ _ _ _ H2).
  match goal with
  | |- context [APIError.from_exception ?e ?sc ?ctx] =>
      destruct (from_exception_returns e sc ctx w2) as (api_exc & w3 & H3)
  end.
  rewrite (bind_ok _ _ _ _ _ H3).
  rewrite handle_api_error_unbound. reflexivity.
Qed.

Lemma generic_handler_raises_NameError_witness :
  result (handle_generic_exception error_py request_with_id connection_error)
    fresh_world
  = Raise (NameError "get_logger").
Proof.
  apply (generic_handler_raises_NameError request_with_id connection_error
           (VStr "req-1") fresh_world).
  reflexivity.
Defined.

(** ** Constructing an [APIError], continued *)

(** X5. The slug of an [APIError] is never empty: an explicit non-empty
    [error] is kept, and a missing or empty one is replaced by the slug of
    the status code. *)
Theorem api_error_slug_never_empty :
  forall (sc : Z) (message : string) (error : option string)
         (details headers context : option dict) (w w' : World) (e : APIError),
    APIError.__init__ sc message error details headers context w = (Ok e, w') ->
    api_error e <> ""
    /\ (forall s, error = Some s -> s <> "" -> api_error e = s)
    /\ (error = None \/ error = Some "" ->
        api_error e = APIError._default_error_code sc).
Proof.
  intros sc message error details headers context w w' e H.
  apply APIError_init_inv in H. subst e. simpl.
  split; [| split].
  - destruct error as [s |]; [| apply default_code_nonempty].
    destruct (String.eqb_spec s ""); [apply default_code_nonempty | assumption].
  - intros s -> Hs. destruct (String.eqb_spec s ""); [contradiction | reflexivity].
  - intros [-> | ->]; reflexivity.
Qed.

Lemma api_error_slug_never_empty_witness :
  exists e w',
    APIError.__init__ 404 "gone" (Some "") None None None fresh_world = (Ok e, w')
    /\ api_error e = "not_found".
Proof.
  destruct (APIError_init_returns 404 "gone" (Some "") None None fresh_world)
    as (e & w' & H).
  exists e, w'. split; [exact H |].
  destruct (api_error_slug_never_empty 404 "gone" (Some "") None None None
              fresh_world w' e H) as (_ & _ & Hd).
  rewrite Hd; [reflexivity | right; reflexivity].
Defined.

Lemma bind_error_call_returns ctx details :
  returns (APIError.bind_error_call ctx details) = negb (colliding_key details).
Proof.
  unfold APIError.bind_error_call, colliding_key.
  destruct (dict_mem details "error_context"); [reflexivity |].
  destruct (dict_mem details "message"); [reflexivity |].
  destruct (dict_mem details "cls"); reflexivity.
Qed.

(** X6. [APIError.__init__] spreads [details] into its log call as keyword
    arguments, so the construction raises, with [TypeError], exactly when
    [details] has a key [error_context], [message] or [cls], the names the
    log call already binds; with any other details it returns. *)
Theorem api_error_details_collision :
  forall (sc : Z) (message : string) (error : option string)
         (details headers context : option dict) (w : World),
    returns (result (APIError.__init__ sc message error details headers context) w)
    = negb (colliding_key (or_empty details))
    /\ (colliding_key (or_empty details) = true ->
        exists msg,
          APIError.__init__ sc message error details headers context w
          = (Raise (TypeError msg), w)).
Proof.
  intros sc message error details headers context w.
  unfold APIError.__init__, result. simpl api_details.
  match goal with
  | |- context [APIError.bind_error_call ?ctx ?d] =>
      pose proof (bind_error_call_returns ctx d) as Hret;
      destruct (APIError.bind_error_call ctx d) as [[ei kw] | e] eqn:Hcall
  end.
  - simpl in Hret. rewrite <- Hret. split.
    + unfold bind at 1. unfold lift at 1.
      destruct (Logger_error_returns
                  ("API Error Created: "
                   ++ match error with
                      | Some e0 =>
                          if String.eqb e0 "" then APIError._default_error_code sc
                          else e0
                      | None => APIError._default_error_code sc
                      end) ei kw w) as (w1 & H1).
      simpl fst. simpl snd. simpl api_error.
      rewrite (bind_ok _ _ _ _ _ H1). reflexivity.
    + intros Hck. rewrite Hck in Hret. discriminate Hret.
  - simpl in Hret. rewrite <- Hret. split.
    + unfold bind at 1. unfold lift at 1. reflexivity.
    + intros _. unfold bind at 1. unfold lift at 1.
      unfold APIError.bind_error_call in Hcall.
      destruct (dict_mem (or_empty details) "error_context");
        [inversion Hcall; eauto |].
      destruct (dict_mem (or_empty details) "message");
        [inversion Hcall; eauto |].
      destruct (dict_mem (or_empty details) "cls");
        [inversion Hcall; eauto | discriminate Hcall].
Qed.

Lemma api_error_details_collision_witness :
  exists msg,
    APIError.__init__ 400 "Invalid parameter" None
      (Some [("message", VStr "must be positive")]) None None fresh_world
    = (Raise (TypeError msg), fresh_world).
Proof.
  apply (api_error_details_collision 400 "Invalid parameter" None
           (Some [("message", VStr "must be positive")]) None None fresh_world).
  reflexivity.
Defined.

(** X7. Each convenience constructor of [APIError], called without an
    explicit [error], builds an error whose slug is the constructor's own
    name, with a status between 400 and 599 and, when no message is given,
    a non-empty default message. *)
Theorem constructor_slug_is_name :
  forall (c : Constructor) (message : option string) (headers context : option dict)
         (w : World),
    exists (e : APIError) (w' : World),
      call_constructor c message None None headers context w = (Ok e, w')
      /\ api_error e = constructor_name c
      /\ 400 <= status_code e < 600
      /\ (forall m, message = Some m -> api_message e = m)
      /\ (message = None -> api_message e <> "").
Proof.
  intros c message headers context w.
  destruct c; simpl;
    unfold APIError.bad_request, APIError.unauthorized, APIError.forbidden,
      APIError.conflict, APIError.validation_error, APIError.rate_limit_exceeded,
      APIError.internal_server_error, APIError.bad_gateway,
      APIError.service_unavailable, APIError.gateway_timeout;
    match goal with
    | |- context [APIError.__init__ ?sc ?m None None headers context w] =>
        destruct (APIError_init_returns sc m None headers context w) as (e & w' & H)
    end;
    exists e, w'; (split; [exact H |]);
    apply APIError_init_inv in H; subst e; simpl;
    (split; [reflexivity |]); (split; [lia |]);
    (split; [intros m ->; reflexivity | intros ->; discriminate]).
Qed.

(** X8. [APIError.not_found(entity)] builds status 404 with slug
    [not_found] and the message "<entity> not found", "Resource not found"
    when no entity is named; [APIError.invalid_json()] builds status 400
    with slug [bad_request] and the message "Invalid JSON data". *)
Theorem not_found_and_invalid_json :
  forall (entity : option string) (w : World),
    (exists e w',
       APIError.not_found entity None None None None w = (Ok e, w')
       /\ status_code e = 404 /\ api_error e = "not_found"
       /\ api_message e
          = (match entity with Some n => n | None => "Resource" end) ++ " not found")
    /\ (exists e w',
          APIError.invalid_json None None None None w = (Ok e, w')
          /\ status_code e = 400 /\ api_error e = "bad_request"
          /\ api_message e = "Invalid JSON data").
Proof.
  intros entity w. split.
  - unfold APIError.not_found.
    match goal with
    | |- context [APIError.__init__ ?sc ?m None None None None w] =>
        destruct (APIError_init_returns sc m None None None w) as (e & w' & H)
    end.
    exists e, w'. split; [exact H |].
    apply APIError_init_inv in H. subst e. simpl.
    destruct entity; repeat split; reflexivity.
  - unfold APIError.invalid_json, APIError.bad_request. simpl APIError.default.
    destruct (APIError_init_returns 400 "Invalid JSON data" None None None w)
      as (e & w' & H).
    exists e, w'. split; [exact H |].
    apply APIError_init_inv in H. subst e. simpl. repeat split; reflexivity.
Qed.

(** ** The exception chain of [handle_generic_exception] *)

Lemma causes_nonempty e : causes e <> [].
Proof. destruct e as [t m s [c |] ctx ec tb]; discriminate. Qed.

(** X9. The [exception_chain] that [handle_generic_exception] logs lists
    the exception and each of its causes in order, except the innermost
    one: the loop stops at the exception that has no cause without
    recording it.  The chain is empty exactly when the exception has no
    cause. *)
Theorem exception_chain_omits_root :
  forall exc : PyExc,
    exception_chain exc = map chain_entry (removelast (causes exc))
    /\ S (List.length (exception_chain exc)) = List.length (causes exc)
    /\ (exception_chain exc = [] <-> exc_cause exc = None).
Proof.
  assert (Hchain : forall exc,
             exception_chain exc = map chain_entry (removelast (causes exc))).
  { fix IH 1. intros [t m s [c |] ctx ec tb]; simpl; [| reflexivity].
    rewrite (IH c).
    destruct (causes c) eqn:Hc; [exfalso; exact (causes_nonempty c Hc) |].
    reflexivity. }
  assert (Hlen : forall exc,
             S (List.length (exception_chain exc)) = List.length (causes exc)).
  { fix IH 1. intros [t m s [c |] ctx ec tb]; simpl; [| reflexivity].
    rewrite (IH c). reflexivity. }
  intros exc. split; [apply Hchain |]. split; [apply Hlen |].
  destruct exc as [t m s [c |] ctx ec tb]; simpl; split; intros H;
    try discriminate; reflexivity.
Qed.

Example exception_chain_sample :
  exception_chain chained_error
  = [VDict [("type", VStr "RuntimeError"); ("message", VStr "outer")];
     VDict [("type", VStr "KeyError"); ("message", VStr "'k'")]].
Proof. reflexivity. Qed.

(** * Further properties of [core/logger.py] *)

(** ** [JSONFormatter.format] *)

Lemma dict_get_none_notin (d : dict) k :
  dict_get d k = None -> ~ In k (dict_keys d).
Proof.
  unfold dict_keys. induction d as [| [k0 v0] d IH]; simpl; intros H; [tauto |].
  destruct (String.eqb_spec k k0) as [-> | Hne]; [discriminate H |].
  intros [Heq | Hin]; [apply Hne; symmetry; exact Heq | exact (IH H Hin)].
Qed.

Lemma format_base record :
  exc_info record <> Some None ->
  exists base,
    JSONFormatter_format record
    = Some (match rec_extra record with
            | Some extra =>
                if truthy (VDict extra) then dict_update base extra else base
            | None => base
            end)
    /\ dict_get base "level" = Some (VStr (levelname record))
    /\ dict_get base "timestamp" = Some (VStr (created record))
    /\ dict_get base "message" = Some (VStr (message record))
    /\ dict_get base "module" = Some (VStr (module_name record))
    /\ dict_get base "function" = Some (VStr (funcName record))
    /\ dict_get base "line" = Some (VInt (lineno record))
    /\ dict_get base "exception"
       = match exc_info record with
         | Some (Some (t, v)) => Some (VDict [("type", VStr t); ("message", VStr v)])
         | _ => None
         end.
Proof.
  intros Hexc. unfold JSONFormatter_format.
  destruct (rec_request_id record) as [rid |];
    destruct (exc_info record) as [[[t v] |] |]; try (exfalso; apply Hexc; reflexivity);
    eexists; (split; [destruct (rec_extra record) as [extra |];
                      [destruct (truthy (VDict extra)) |]; reflexivity |]);
    repeat split; reflexivity.
Qed.

(** X10. In a JSON entry the payload wins over the standard fields: every
    key of the payload is in the entry with the payload's value, also
    [level], [timestamp], [message], [module], [function], [line] and
    [exception]; a standard field keeps its own value only when the payload
    has no key of that name. *)
Theorem payload_overrides_standard_fields :
  forall (record : LogRecord) (extra log_data : dict),
    dict_wf extra ->
    rec_extra record = Some extra ->
    JSONFormatter_format record = Some log_data ->
    (forall k v, dict_get extra k = Some v -> dict_get log_data k = Some v)
    /\ (dict_get extra "level" = None ->
        dict_get log_data "level" = Some (VStr (levelname record)))
    /\ (dict_get extra "message" = None ->
        dict_get log_data "message" = Some (VStr (message record)))
    /\ (dict_get extra "timestamp" = None ->
        dict_get log_data "timestamp" = Some (VStr (created record))).
Proof.
  intros record extra log_data Hwf Hextra Hfmt.
  assert (Hexc : exc_info record <> Some None).
  { intros Hnone. unfold JSONFormatter_format in Hfmt. rewrite Hnone in Hfmt.
    discriminate Hfmt. }
  destruct (format_base record Hexc)
    as (base & Hbase & Hlevel & Hts & Hmsg & _).
  rewrite Hextra in Hbase. rewrite Hbase in Hfmt.
  inversion Hfmt as [Hdata]; clear Hfmt.
  destruct extra as [| kv extra].
  - simpl. split; [intros k v H; discriminate H |]. auto.
  - simpl truthy. cbv iota.
    split; [intros k v Hget; apply dict_get_update_in; assumption |].
    repeat split; intros Habsent;
      rewrite dict_get_update_notin by (apply dict_get_none_notin; exact Habsent);
      assumption.
Qed.

Lemma payload_overrides_standard_fields_witness :
  dict_get
    [("level", VStr "fake"); ("timestamp", VStr "t0"); ("message", VStr "hello");
     ("module", VStr "logger"); ("function", VStr "info"); ("line", VInt 152)]
    "level" = Some (VStr "fake").
Proof.
  refine (proj1 (payload_overrides_standard_fields
                   {| levelname := "INFO"; levelno := 20; created := "t0";
                      message := "hello"; module_name := "logger";
                      funcName := "info"; lineno := 152; exc_info := None;
                      rec_request_id := None;
                      rec_extra := Some [("level", VStr "fake")] |}
                   [("level", VStr "fake")] _ _ _ _) "level" (VStr "fake") _).
  - unfold dict_wf. simpl. repeat constructor. intros [].
  - reflexivity.
  - reflexivity.
  - reflexivity.
Defined.

(** ** What a log call writes *)

Lemma emit_all_json_dropped record hs : forall w,
  JSONFormatter_format record = None ->
  (forall h, In h hs -> h_formatter h = JSONFormatter) ->
  fold_left (fun w' h => Handler_emit h record w') hs w = w.
Proof.
  induction hs as [| h hs IH]; simpl; intros w Hfmt Hjson; [reflexivity |].
  unfold Handler_emit at 2. rewrite (Hjson h (or_introl eq_refl)), Hfmt.
  apply IH; [exact Hfmt | intros h' Hin; apply Hjson; right; exact Hin].
Qed.

Lemma get_logger_initialized w :
  Logger_logger w = true -> Logger._get_logger w = (Ok tt, w).
Proof.
  intros H. unfold Logger._get_logger, bind, get_world. rewrite H. reflexivity.
Qed.

(** X11. [Logger.error(message, exc_info=True)] called while no exception
    is being handled loses its entry: with JSON handlers the formatter
    fails on the empty [exc_info] triple, the handler swallows the failure,
    and the call returns having written nothing at all. *)
Theorem exc_info_without_exception_drops_entry :
  forall (message : string) (kwargs : dict) (w : World),
    Logger_logger w = true ->
    current_exc w = None ->
    (forall h, In h (lg_handlers (app_logger w)) -> h_formatter h = JSONFormatter) ->
    Logger.error message EI_True kwargs w = (Ok tt, w)
    /\ Logger.critical message EI_True kwargs w = (Ok tt, w).
Proof.
  intros message kwargs w Hset Hexc Hjson.
  unfold Logger.error, Logger.critical.
  rewrite !(bind_ok _ _ _ _ _ (get_logger_initialized w Hset)).
  unfold PyLogger_log.
  split; destruct (getEffectiveLevel w <=? _); try reflexivity;
    rewrite emit_all_json_dropped;
    try reflexivity; try exact Hjson;
    unfold JSONFormatter_format; simpl; rewrite Hexc; reflexivity.
Qed.

Lemma exc_info_without_exception_drops_entry_witness :
  Logger.error "Payment failed" EI_True [("order_id", VInt 7)] world_after_setup
  = (Ok tt, world_after_setup).
Proof.
  refine (proj1 (exc_info_without_exception_drops_entry "Payment failed"
                   [("order_id", VInt 7)] world_after_setup _ _ _)).
  - reflexivity.
  - reflexivity.
  - vm_compute. intros h [<- | []]. reflexivity.
Defined.






(** ** [Logger.setup] and the lazy initialisation *)

Lemma emit_frame h record w :
  Logger_logger (Handler_emit h record w) = Logger_logger w
  /\ middleware (Handler_emit h record w) = middleware w.
Proof.
  unfold Handler_emit.
  destruct (h_formatter h); [destruct (JSONFormatter_format record) |];
    split; reflexivity.
Qed.

Lemma emit_all_frame record hs : forall w,
  Logger_logger (fold_left (fun w' h => Handler_emit h record w') hs w)
  = Logger_logger w
  /\ middleware (fold_left (fun w' h => Handler_emit h record w') hs w)
     = middleware w.
Proof.
  induction hs as [| h hs IH]; simpl; intros w; [split; reflexivity |].
  destruct (IH (Handler_emit h record w)) as (H1 & H2).
  destruct (emit_frame h record w) as (H3 & H4).
  rewrite H1, H2, H3, H4. split; reflexivity.
Qed.

Lemma PyLogger_log_frame lvl lvlname func line msg ei extra w :
  Logger_logger (snd (PyLogger_log lvl lvlname func line msg ei extra w))
  = Logger_logger w
  /\ middleware (snd (PyLogger_log lvl lvlname func line msg ei extra w))
     = middleware w.
Proof.
  unfold PyLogger_log. destruct (getEffectiveLevel w <=? lvl); simpl;
    [apply emit_all_frame | split; reflexivity].
Qed.

Lemma setup_known_level_run app log_level json_format n w :
  nameToLevel (upper log_level) = Some n ->
  exists w0,
    Logger.setup app log_level json_format w
    = PyLogger_log INFO "INFO" "setup" 141
        ("Logger initialized with level: " ++ log_level) EI_False None w0
    /\ Logger_logger w0 = true
    /\ middleware w0
       = (middleware w ++ (if app then ["LoggingMiddleware"] else []))%list.
Proof.
  intros Hn. unfold Logger.setup.
  unfold bind at 1. unfold setLevel at 1. rewrite Hn.
  unfold bind, set_handlers, set_propagate, addHandler, ret.
  destruct app; eexists; (split; [reflexivity |]); simpl;
    rewrite ?app_nil_r; split; reflexivity.
Qed.

Lemma setup_known_level_frame app log_level json_format n w :
  nameToLevel (upper log_level) = Some n ->
  Logger_logger (world_after (Logger.setup app log_level json_format) w) = true
  /\ middleware (world_after (Logger.setup app log_level json_format) w)
     = (middleware w ++ (if app then ["LoggingMiddleware"] else []))%list.
Proof.
  intros Hn.
  destruct (setup_known_level_run app log_level json_format n w Hn)
    as (w0 & Hrun & Hset & Hmw).
  unfold world_after. rewrite Hrun.
  match goal with
  | |- context [PyLogger_log ?a ?b ?c ?d ?e ?f ?g w0] =>
      destruct (PyLogger_log_frame a b c d e f g w0) as (H1 & H2)
  end.
  rewrite H1, H2. split; assumption.
Qed.

(** X13. [setup] is not idempotent on the application: every call that is
    given an app and a known level adds one more [LoggingMiddleware], so two
    such calls leave the app with two of them, while the logger keeps a
    single handler.  A call without an app leaves the middleware alone. *)
Theorem setup_stacks_middleware :
  forall (app1 : bool) (level1 : string) (json1 : bool)
         (app2 : bool) (level2 : string) (json2 : bool) (n1 n2 : Z) (w : World),
    nameToLevel (upper level1) = Some n1 ->
    nameToLevel (upper level2) = Some n2 ->
    middleware (setup_twice app1 level1 json1 app2 level2 json2 w)
    = (middleware w
       ++ (if app1 then ["LoggingMiddleware"] else [])
       ++ (if app2 then ["LoggingMiddleware"] else []))%list
    /\ lg_handlers (app_logger (setup_twice app1 level1 json1 app2 level2 json2 w))
       = [{| h_formatter := if json2 then JSONFormatter else PlainFormatter |}].
Proof.
  intros app1 level1 json1 app2 level2 json2 n1 n2 w H1 H2. unfold setup_twice.
  destruct (setup_known_level_frame app2 level2 json2 n2
              (world_after (Logger.setup app1 level1 json1) w) H2) as (_ & Hm2).
  destruct (setup_known_level_frame app1 level1 json1 n1 w H1) as (_ & Hm1).
  rewrite Hm2, Hm1, <- app_assoc.
  split; [reflexivity |].
  rewrite (setup_known_level _ _ _ n2) by exact H2. reflexivity.
Qed.

Lemma setup_stacks_middleware_witness :
  middleware (setup_twice true "INFO" true true "INFO" true fresh_world)
  = ["LoggingMiddleware"; "LoggingMiddleware"].
Proof.
  refine (proj1 (setup_stacks_middleware true "INFO" true true "INFO" true 20 20
                   fresh_world _ _)); reflexivity.
Defined.

(** X14. The logger initialises itself on first use: a log operation of
    [Logger], or [get_request_logger], on a process where [setup] never ran
    leaves the logger at level INFO with one JSON handler and propagation
    off; once the logger is set, neither ever changes its level, handlers
    or propagation again, nor the middleware. *)
Theorem lazy_setup :
  forall (m : LogMethod) (message : string) (ei : ExcInfoArg) (kwargs : dict)
         (request : Request) (w : World),
    let after_call := world_after (Logger_call m message ei kwargs) w in
    let after_get := world_after (get_request_logger request) w in
    Logger_logger after_call = true /\ Logger_logger after_get = true
    /\ (Logger_logger w = false ->
        app_logger after_call
        = {| lg_level := 20; lg_handlers := [{| h_formatter := JSONFormatter |}];
             lg_propagate := false |}
        /\ app_logger after_get = app_logger after_call)
    /\ (Logger_logger w = true ->
        app_logger after_call = app_logger w /\ after_get = w
        /\ middleware after_call = middleware w).
Proof.
  intros m message ei kwargs request w. cbv zeta.
  assert (Hget : exists w1,
             Logger._get_logger w = (Ok tt, w1)
             /\ Logger_logger w1 = true
             /\ (Logger_logger w = false ->
                 app_logger w1
                 = {| lg_level := 20;
                      lg_handlers := [{| h_formatter := JSONFormatter |}];
                      lg_propagate := false |})
             /\ (Logger_logger w = true -> w1 = w)).
  { destruct (Logger_logger w) eqn:Hset.
    - exists w. rewrite (get_logger_initialized w Hset).
      split; [reflexivity |]. split; [exact Hset |].
      split; [intros H; discriminate H | intros _; reflexivity].
    - destruct (setup_valid_returns false "INFO" true 20 w eq_refl) as (w1 & H1).
      exists w1.
      assert (Hw1 : w1 = world_after (Logger.setup false "INFO" true) w)
        by (unfold world_after; rewrite H1; reflexivity).
      split.
      { unfold Logger._get_logger, bind, get_world. rewrite Hset. exact H1. }
      split.
      { rewrite Hw1. apply (setup_known_level_frame false "INFO" true 20 w eq_refl). }
      split; [| discriminate].
      intros _. rewrite Hw1. apply (setup_known_level false "INFO" true 20 w eq_refl). }
  destruct Hget as (w1 & Hrun & Hset1 & Hfresh & Hsame).
  assert (Hcall : exists func line lvl lvlname ei',
             Logger_call m message ei kwargs w
             = PyLogger_log lvl lvlname func line message ei' (Some kwargs) w1).
  { destruct m; simpl;
      unfold Logger.info, Logger.error, Logger.warning, Logger.debug,
        Logger.critical;
      rewrite (bind_ok _ _ _ _ _ Hrun); eauto 10. }
  destruct Hcall as (func & line & lvl & lvlname & ei' & Hcall).
  assert (Hafter_get : world_after (get_request_logger request) w = w1).
  { unfold world_after, get_request_logger. rewrite (bind_ok _ _ _ _ _ Hrun).
    reflexivity. }
  rewrite Hafter_get. unfold world_after. rewrite Hcall.
  destruct (PyLogger_log_frame lvl lvlname func line message ei' (Some kwargs) w1)
    as (Hf1 & Hf2).
  rewrite Hf1, Hf2, PyLogger_log_app_logger.
  split; [exact Hset1 |]. split; [exact Hset1 |]. split.
  - intros Hunset. split; [apply Hfresh; exact Hunset | reflexivity].
  - intros Hset. rewrite (Hsame Hset). auto.
Qed.

(** ** [LoggingMiddleware.dispatch] *)

Lemma Logger_info_returns message kwargs w :
  exists w', Logger.info message kwargs w = (Ok tt, w').
Proof. exact (Logger_call_returns m_info message EI_False kwargs w). Qed.

Lemma dispatch_enter_run x_request_id uuid4 request w :
  exists w1,
    dispatch_enter x_request_id uuid4 request w
    = (Ok (set_state_attr request "request_id"
             (VStr (match x_request_id with Some h => h | None => uuid4 end))), w1).
Proof.
  unfold dispatch_enter.
  match goal with
  | |- context [Logger.info ?m ?kw] =>
      destruct (Logger_info_returns m kw w) as (w1 & H1)
  end.
  exists w1. rewrite (bind_ok _ _ _ _ _ H1). reflexivity.
Qed.

Lemma dispatch_result describe x_request_id uuid4 duration_ok duration_failed
    call_next request w tagged w1 :
  dispatch_enter x_request_id uuid4 request w = (Ok tagged, w1) ->
  result (dispatch describe x_request_id uuid4 duration_ok duration_failed
            call_next request) w
  = result (call_next tagged) w1.
Proof.
  intros Henter. unfold result, dispatch.
  rewrite (bind_ok _ _ _ _ _ Henter). unfold try_except.
  destruct (call_next tagged w1) as [[response | e] w2] eqn:Hnext.
  - rewrite (bind_ok _ _ _ _ _ Hnext).
    match goal with
    | |- context [Logger.info ?m ?kw] =>
        destruct (Logger_info_returns m kw w2) as (w3 & H3)
    end.
    rewrite (bind_ok _ _ _ _ _ H3). reflexivity.
  - rewrite (bind_raise _ _ _ _ _ Hnext).
    match goal with
    | |- context [Logger.error ?m ?ei ?kw] =>
        destruct (Logger_error_returns m ei kw w2) as (w3 & H3)
    end.
    rewrite (bind_ok _ _ _ _ _ H3). reflexivity.
Qed.

(** X15. The middleware is transparent: it tags the request with the
    [X-Request-ID] header, or with a fresh uuid when there is none, hands
    the tagged request to [call_next], and returns exactly the response
    [call_next] returns, or raises again exactly the exception it raises;
    it touches nothing of the request but the correlation id. *)
Theorem dispatch_is_transparent :
  forall (describe : exn -> string * string) (x_request_id : option string)
         (uuid4 : string) (duration_ok duration_failed : value)
         (call_next : Request -> M JSONResponse) (request : Request) (w : World),
    exists (tagged : Request) (w1 : World),
      dispatch_enter x_request_id uuid4 request w = (Ok tagged, w1)
      /\ dict_get (state tagged) "request_id"
         = Some (VStr (match x_request_id with Some h => h | None => uuid4 end))
      /\ (forall k, k <> "request_id" ->
                    dict_get (state tagged) k = dict_get (state request) k)
      /\ url_path tagged = url_path request /\ method tagged = method request
      /\ result (dispatch describe x_request_id uuid4 duration_ok duration_failed
                   call_next request) w
         = result (call_next tagged) w1.
Proof.
  intros describe x_request_id uuid4 duration_ok duration_failed call_next request w.
  destruct (dispatch_enter_run x_request_id uuid4 request w) as (w1 & Henter).
  eexists. exists w1.
  split; [exact Henter |].
  split; [apply dict_get_set_same |].
  split; [intros k Hk; apply dict_get_set_other; exact Hk |].
  split; [reflexivity |]. split; [reflexivity |].
  apply dispatch_result. exact Henter.
Qed.

(** ** The validation handlers, continued *)

Lemma dump_request_id r :
  dict_get (model_dump_exclude_none r) "request_id" = option_map VStr (request_id r).
Proof.
  unfold model_dump_exclude_none.
  destruct (request_id r), (trace_id r), (details r), (errors r); reflexivity.
Qed.

Lemma dump_get_besides_message r1 r2 k :
  code r1 = code r2 -> er_error r1 = er_error r2 ->
  request_id r1 = request_id r2 -> trace_id r1 = trace_id r2 ->
  details r1 = details r2 -> errors r1 = errors r2 ->
  k <> "message" ->
  dict_get (model_dump_exclude_none r1) k = dict_get (model_dump_exclude_none r2) k.
Proof.
  destruct r1 as [c1 m1 e1 rid1 tid1 det1 errs1], r2 as [c2 m2 e2 rid2 tid2 det2 errs2].
  simpl. intros -> -> -> -> -> -> Hk.
  unfold model_dump_exclude_none. simpl.
  destruct (String.eqb k "code"); [reflexivity |].
  destruct (String.eqb_spec k "message"); [contradiction | reflexivity].
Qed.

Lemma handle_validation_error_runs request errs rid w :
  dict_get (state request) "request_id" = Some rid ->
  is_opt_str rid = true ->
  is_opt_str (state_getattr request "trace_id") = true ->
  exists resp w',
    handle_validation_error request errs w
    = (Ok {| resp_status_code := 422; content := model_dump_exclude_none resp;
             resp_headers := [] |}, w')
    /\ ErrorResponse_init
         [("code", VInt HTTP_422_UNPROCESSABLE_ENTITY);
          ("message", VStr "Request validation error");
          ("error", VStr "validation_error");
          ("request_id", state_getattr request "request_id");
          ("trace_id", state_getattr request "trace_id");
          ("errors", VList (map VDict (map error_detail_of errs)))] = Ok resp.
Proof.
  intros Hrid Hok Htid. unfold handle_validation_error.
  destruct (get_request_logger_returns request w) as (w1 & H1).
  rewrite (bind_ok _ _ _ _ _ H1).
  match goal with
  | |- context [RequestLogger.warning ?rl ?m ?kw] =>
      destruct (RequestLogger_warning_returns request m kw rid w1 Hrid) as (w2 & H2)
  end.
  rewrite (bind_ok _ _ _ _ _ H2).
  destruct (validation_response_returns request "Request validation error"
              errs rid w2 Hrid Hok Htid) as (resp & H3).
  rewrite (bind_ok _ _ _ _ _ H3). unfold ret.
  exists resp, w2. split; [reflexivity |].
  apply lift_ok_inv in H3. apply H3.
Qed.

(** X16. The correlation id makes the round trip: a request that enters
    through the middleware with an [X-Request-ID] header and fails request
    validation is answered with status 422 and a body whose [request_id] is
    the header's value; without the header the body carries the generated
    uuid. *)
Theorem request_id_round_trip :
  forall (describe : exn -> string * string) (x_request_id : option string)
         (uuid4 : string) (duration_ok duration_failed : value)
         (errs : list FieldError) (request : Request) (w : World),
    is_opt_str (state_getattr request "trace_id") = true ->
    exists r : JSONResponse,
      result (dispatch describe x_request_id uuid4 duration_ok duration_failed
                (fun tagged => handle_validation_error tagged errs) request) w
      = Ok r
      /\ resp_status_code r = 422
      /\ dict_get (content r) "request_id"
         = Some (VStr (match x_request_id with Some h => h | None => uuid4 end)).
Proof.
  intros describe x_request_id uuid4 duration_ok duration_failed errs request w Htid.
  destruct (dispatch_enter_run x_request_id uuid4 request w) as (w1 & Henter).
  rewrite (dispatch_result _ _ _ _ _ _ _ _ _ _ Henter).
  set (rid := match x_request_id with Some h => h | None => uuid4 end) in *.
  set (tagged := set_state_attr request "request_id" (VStr rid)) in *.
  assert (Hrid : dict_get (state tagged) "request_id" = Some (VStr rid))
    by apply dict_get_set_same.
  assert (Htid' : is_opt_str (state_getattr tagged "trace_id") = true).
  { unfold state_getattr, tagged. simpl.
    rewrite dict_get_set_other by discriminate. exact Htid. }
  destruct (handle_validation_error_runs tagged errs (VStr rid) w1 Hrid eq_refl Htid')
    as (resp & w2 & Hrun & Hinit).
  eexists. unfold result. rewrite Hrun. cbn [fst resp_status_code content].
  split; [reflexivity |]. split; [reflexivity |].
  apply ErrorResponse_init_inv in Hinit.
  destruct Hinit as (_ & _ & _ & Hreq & _).
  cbn in Hreq. unfold state_getattr in Hreq. rewrite Hrid in Hreq.
  inversion Hreq as [Hreq']. cbn [content].
  rewrite dump_request_id, <- Hreq'. reflexivity.
Qed.

Lemma request_id_round_trip_witness :
  exists r : JSONResponse,
    result (dispatch describe_sample (Some "abc-123") "generated" (VInt 3) (VInt 3)
              (fun tagged => handle_validation_error tagged two_invalid_fields)
              request_without_id) fresh_world
    = Ok r
    /\ resp_status_code r = 422
    /\ dict_get (content r) "request_id" = Some (VStr "abc-123").
Proof.
  apply (request_id_round_trip describe_sample (Some "abc-123") "generated"
           (VInt 3) (VInt 3) two_invalid_fields request_without_id fresh_world).
  reflexivity.
Defined.

Lemma validation_init_agree request errs m1 m2 :
  match ErrorResponse_init
          [("code", VInt HTTP_422_UNPROCESSABLE_ENTITY);
           ("message", VStr m1);
           ("error", VStr "validation_error");
           ("request_id", state_getattr request "request_id");
           ("trace_id", state_getattr request "trace_id");
           ("errors", VList (map VDict (map error_detail_of errs)))],
        ErrorResponse_init
          [("code", VInt HTTP_422_UNPROCESSABLE_ENTITY);
           ("message", VStr m2);
           ("error", VStr "validation_error");
           ("request_id", state_getattr request "request_id");
           ("trace_id", state_getattr request "trace_id");
           ("errors", VList (map VDict (map error_detail_of errs)))] with
  | Ok r1, Ok r2 =>
      er_message r1 = m1 /\ er_message r2 = m2
      /\ code r1 = code r2 /\ er_error r1 = er_error r2
      /\ request_id r1 = request_id r2 /\ trace_id r1 = trace_id r2
      /\ details r1 = details r2 /\ errors r1 = errors r2
  | Raise e1, Raise e2 => e1 = e2
  | _, _ => False
  end.
Proof.
  pose proof (error_details_validate errs) as Hes.
  unfold ErrorResponse_init, field_opt_errors in *. cbn in Hes |- *.
  destruct (state_getattr request "request_id");
    destruct (state_getattr request "trace_id");
    cbn; rewrite ?Hes; cbn; repeat split; reflexivity.
Qed.

(** X17. The two validation handlers answer alike, on every request: given
    the same request and the same errors they either raise the same
    exception or both return status 422 with bodies that agree on every key
    but [message], which is "Request validation error" for the one and
    "Data validation error" for the other. *)
Theorem validation_handlers_agree :
  forall (request : Request) (errs : list FieldError) (w : World),
    (exists e : exn,
       result (handle_validation_error request errs) w = Raise e
       /\ result (handle_pydantic_validation_error request errs) w = Raise e)
    \/ (exists r1 r2 : JSONResponse,
          result (handle_validation_error request errs) w = Ok r1
          /\ result (handle_pydantic_validation_error request errs) w = Ok r2
          /\ resp_status_code r1 = 422 /\ resp_status_code r2 = 422
          /\ dict_get (content r1) "message" = Some (VStr "Request validation error")
          /\ dict_get (content r2) "message" = Some (VStr "Data validation error")
          /\ forall k, k <> "message" ->
                       dict_get (content r1) k = dict_get (content r2) k).
Proof.
  intros request errs w.
  destruct (get_request_logger_returns request w) as (w1 & H1).
  unfold result, handle_validation_error, handle_pydantic_validation_error.
  rewrite !(bind_ok _ _ _ _ _ H1).
  destruct (dict_get (state request) "request_id") as [rid |] eqn:Hrid.
  - match goal with
    | |- context [RequestLogger.warning ?rl "Request validation error" ?kw] =>
        destruct (RequestLogger_warning_returns request
                    "Request validation error" kw rid w1 Hrid) as (w2 & H2)
    end.
    match goal with
    | |- context [RequestLogger.warning ?rl "Pydantic validation error" ?kw] =>
        destruct (RequestLogger_warning_returns request
                    "Pydantic validation error" kw rid w1 Hrid) as (w3 & H3)
    end.
    rewrite (bind_ok _ _ _ _ _ H2), (bind_ok _ _ _ _ _ H3).
    pose proof (validation_init_agree request errs "Request validation error"
                  "Data validation error") as Hagree.
    unfold bind, lift, ret.
    destruct (ErrorResponse_init _) as [resp1 | e1] in Hagree |- *;
      destruct (ErrorResponse_init _) as [resp2 | e2] in Hagree |- *;
      try contradiction.
    + right. do 2 eexists. cbn [fst resp_status_code content].
      split; [reflexivity |]. split; [reflexivity |].
      split; [reflexivity |]. split; [reflexivity |].
      destruct Hagree as (Hm1 & Hm2 & Hc & He & Hr & Ht & Hd & Hes).
      cbn [content]. rewrite !dump_message, Hm1, Hm2.
      split; [reflexivity |]. split; [reflexivity |].
      intros k Hk. apply dump_get_besides_message; assumption.
    + left. exists e1. subst e2. split; reflexivity.
  - left. exists (AttributeError "State" "request_id").
    split; erewrite bind_raise; try reflexivity;
      apply RequestLogger_warning_missing_id; exact Hrid.
Qed.

Lemma validation_handlers_agree_witness :
  exists r1 r2 : JSONResponse,
    result (handle_validation_error request_with_id two_invalid_fields) fresh_world
    = Ok r1
    /\ result (handle_pydantic_validation_error request_with_id two_invalid_fields)
         fresh_world = Ok r2
    /\ dict_get (content r1) "errors" = dict_get (content r2) "errors".
Proof.
  destruct (validation_handlers_agree request_with_id two_invalid_fields fresh_world)
    as [(e & H1 & _) | (r1 & r2 & H1 & H2 & _ & _ & _ & _ & Hsame)].
  - exfalso. vm_compute in H1. discriminate H1.
  - exists r1, r2. split; [exact H1 |]. split; [exact H2 |].
    apply Hsame. discriminate.
Defined.

(** ** The slug of a status code *)

Lemma to_int_not_nil z :
  Z.to_int z <> Decimal.Pos Decimal.Nil /\ Z.to_int z <> Decimal.Neg Decimal.Nil.
Proof.
  destruct z as [| p | p]; simpl; split; try discriminate;
    intros H; inversion H as [Hp]; exact (Unsigned.to_uint_nonnil p Hp).
Qed.

Lemma str_int_inj a b : str_int a = str_int b -> a = b.
Proof.
  unfold str_int. intros H.
  apply (f_equal NilZero.int_of_string) in H.
  destruct (to_int_not_nil a) as (Ha1 & Ha2).
  destruct (to_int_not_nil b) as (Hb1 & Hb2).
  rewrite !NilZero.isi in H by assumption.
  inversion H as [Hab].
  apply (f_equal Z.of_int) in Hab. rewrite !DecimalZ.of_to in Hab. exact Hab.
Qed.

Lemma listed_slug sc :
  In sc (map fst slug_table) -> In (sc, APIError._default_error_code sc) slug_table.
Proof.
  simpl. intros H.
  repeat (destruct H as [<- | H]; [simpl; tauto |]).
  contradiction.
Qed.

(** X18. The slug determines the status code: two status codes with the
    same default slug are the same code, so no two listed codes share a
    slug and no unlisted code gets the slug of another code. *)
Theorem default_error_code_injective :
  forall a b : Z,
    APIError._default_error_code a = APIError._default_error_code b -> a = b.
Proof.
  intros a b H.
  destruct (in_dec Z.eq_dec a (map fst slug_table)) as [Ha | Ha];
    destruct (in_dec Z.eq_dec b (map fst slug_table)) as [Hb | Hb].
  - simpl in Ha, Hb.
    repeat (destruct Ha as [<- | Ha]; [| ]); try contradiction;
      repeat (destruct Hb as [<- | Hb]; [| ]); try contradiction;
      first [reflexivity | vm_compute in H; discriminate H].
  - rewrite (default_code_unlisted b Hb) in H.
    simpl in Ha.
    repeat (destruct Ha as [<- | Ha]; [vm_compute in H; discriminate H |]).
    contradiction.
  - rewrite (default_code_unlisted a Ha) in H.
    simpl in Hb.
    repeat (destruct Hb as [<- | Hb]; [vm_compute in H; discriminate H |]).
    contradiction.
  - rewrite (default_code_unlisted a Ha), (default_code_unlisted b Hb) in H.
    apply str_int_inj. simpl in H. inversion H. reflexivity.
Qed.

Lemma default_error_code_injective_witness :
  404 = 404.
Proof.
  apply (default_error_code_injective 404 404). reflexivity.
Defined.

(** ** The body [handle_api_error] builds *)




(** ** The body [handle_app_error] builds *)



(** ** [ErrorDetail] through its dict *)

Lemma full_dump_keys e :
  dict_keys (ErrorDetail_model_dump e) = ["location"; "message"; "type"; "code"].
Proof. reflexivity. Qed.

(** X21. The detour the validation handlers take, dumping each
    [ErrorDetail] to a dict and letting [ErrorResponse] validate the dicts
    again, loses nothing: the full dump always has the four keys
    [location], [message], [type], [code], with [None] for an unset one,
    and validating the dumps of a list of details gives the list back. *)
Theorem error_detail_dump_round_trip :
  forall es : list ErrorDetail,
    ErrorDetail_list (map VDict (map ErrorDetail_model_dump es)) = Ok es
    /\ (forall e, In e es ->
          dict_keys (ErrorDetail_model_dump e) = ["location"; "message"; "type"; "code"]
          /\ ErrorDetail_init (ErrorDetail_model_dump e) = Ok e
          /\ (dict_get (ErrorDetail_model_dump e) "code" = Some VNone
              <-> ed_code e = None)).
Proof.
  intros es. split; [apply ErrorDetail_list_dump |].
  intros e _. split; [apply full_dump_keys |].
  split; [apply ErrorDetail_init_dump |].
  destruct e as [l m t [c |]]; simpl; split; intros H; congruence.
Qed.

(** ** What constructing an [AppError] logs *)






(** ** What constructing an [APIError] logs *)





